(** * Listings app views: a shallow embedding of [listings/views.py]

    The view sets of the listings app for listings, bookings and reviews
    are request handlers over a relational store.  The store is a record of
    tables, a handler is a computation in a state and exception monad over
    it, and the generic parts of a view set (permission check, object
    lookup, the create / update / destroy mixins, the exception handler) are
    written out as the REST framework runs them. *)

From Stdlib Require Import ZArith QArith String Ascii List Bool Lia.
From stdpp Require Import base option list strings gmap.

Close Scope Q_scope.
Open Scope string_scope.
Open Scope stdpp_scope.

(** ** Text lookups: [icontains] *)

Module Text.

(** ASCII case folding, as the [icontains] lookup compares text. *)
Definition lower_ascii (c : ascii) : ascii :=
  let n := nat_of_ascii c in
  if (65 <=? n)%nat && (n <=? 90)%nat then ascii_of_nat (n + 32) else c.

Fixpoint lower (s : string) : string :=
  match s with
  | EmptyString => EmptyString
  | String c s' => String (lower_ascii c) (lower s')
  end.

(** [contains s pat]: [pat] occurs in [s] as a contiguous run. *)
Fixpoint contains (s pat : string) : bool :=
  String.prefix pat s
  || match s with
     | EmptyString => false
     | String _ s' => contains s' pat
     end.

(** [field__icontains=pat] *)
Definition icontains (field pat : string) : bool :=
  contains (lower field) (lower pat).

End Text.

(** ** Data model *)

(** [request.user]: the anonymous user, or a stored user known by its
    primary key. *)
Inductive Principal :=
| AnonymousUser
| User (pk : nat).

Definition is_authenticated (u : Principal) : bool :=
  match u with
  | User _ => true
  | AnonymousUser => false
  end.

(** [stored != request.user], where [stored] is a user row referenced by a
    foreign key: model instances are equal when their primary keys are, and
    no row equals the anonymous user. *)
Definition user_ne (stored : nat) (u : Principal) : bool :=
  match u with
  | User pk => negb (stored =? pk)%nat
  | AnonymousUser => true
  end.

(** Modelled from the spec: [listings/models.py] is not among the sources.
    A listing has an owner, title, description, location, listing type,
    nightly price (a decimal), a guest capacity and an active flag. *)
Record Listing := {
  listing_id : nat;
  owner : nat;
  title : string;
  description : string;
  location : string;
  listing_type : string;
  price_per_night : Q;
  max_guests : Z;
  is_active : bool
}.

(** Modelled from the spec: [listings/models.py] is not among the sources.
    A booking references a listing and a guest and has a status, stay
    dates and a guest count. *)
Record Booking := {
  booking_id : nat;
  booking_listing : nat;
  guest : nat;
  status : string;
  check_in : Z;
  check_out : Z;
  num_guests : Z
}.

(** Modelled from the spec: [listings/models.py] is not among the sources.
    A review references a listing and a reviewer and has a rating and a
    comment. *)
Record Review := {
  review_id : nat;
  review_listing : nat;
  reviewer : nat;
  rating : Z;
  comment : string
}.

#[global] Instance Booking_eq_dec : EqDecision Booking.
Proof. solve_decision. Defined.

#[global] Instance Review_eq_dec : EqDecision Review.
Proof. solve_decision. Defined.

(** The relational store: one table per model, rows in storage order. *)
Record DB := {
  Listing_objects : list Listing;
  Booking_objects : list Booking;
  Review_objects : list Review
}.

(** Values of [request.data] and of a serializer's validated data. *)
Inductive value :=
| VNone
| VBool (b : bool)
| VInt (n : Z)
| VStr (s : string)
| VUser (u : Principal)
| VRef (pk : nat).

(** ** Requests, responses, exceptions *)

Inductive method := GET | HEAD | OPTIONS | POST | PUT | PATCH | DELETE.

Record Request := {
  user : Principal;
  query_params : gmap string string;
  data : gmap string value
}.

Inductive exception :=
| NotAuthenticated
| PermissionDenied
| Http404
| ValidationError
(* not API exceptions: they escape the exception handler *)
| DoesNotExist
| MultipleObjectsReturned
| LookupValueError
| IntegrityError
| AttributeError.

Inductive content :=
| Error (msg : string)
| Detail (e : exception)
| ListingData (x : Listing)
| ListingList (xs : list Listing)
| BookingData (x : Booking)
| BookingList (xs : list Booking)
| ReviewData (x : Review)
| ReviewList (xs : list Review)
| Unsaved (validated_data : gmap string value)
| NoContent.

Record HttpResponse := Response {
  response_data : content;
  status_code : nat
}.

Definition HTTP_200_OK := 200%nat.
Definition HTTP_201_CREATED := 201%nat.
Definition HTTP_204_NO_CONTENT := 204%nat.
Definition HTTP_400_BAD_REQUEST := 400%nat.
Definition HTTP_401_UNAUTHORIZED := 401%nat.
Definition HTTP_403_FORBIDDEN := 403%nat.
Definition HTTP_404_NOT_FOUND := 404%nat.
Definition HTTP_500_INTERNAL_SERVER_ERROR := 500%nat.

(** ** The handler monad: state (the store) and exceptions *)

Definition View (A : Type) : Type := DB -> (exception + A) * DB.

#[global] Instance View_ret : MRet View :=
  fun A a db => (inr a, db).

#[global] Instance View_bind : MBind View :=
  fun A B f m db =>
    match m db with
    | (inl e, db') => (inl e, db')
    | (inr a, db') => f a db'
    end.

Definition raise {A} (e : exception) : View A := fun db => (inl e, db).

Definition get_db : View DB := fun db => (inr db, db).

Definition put_db (db' : DB) : View unit := fun _ => (inr tt, db').

(** ** The object-relational layer *)

Class Model (M : Type) := {
  pk : M -> nat;
  objects : DB -> list M;
  set_objects : list M -> DB -> DB;
  (* rows of other tables removed together with the row of this key *)
  on_delete : nat -> DB -> DB;
  one : M -> content;
  many : list M -> content
}.

(** Modelled from the spec: [listings/models.py] is not among the sources.
    Every booking and every review must reference an existing listing, so
    the rows referencing a deleted listing go with it. *)
Definition Listing_on_delete (key : nat) (db : DB) : DB :=
  {| Listing_objects := Listing_objects db;
     Booking_objects :=
       List.filter (fun b => negb (booking_listing b =? key)%nat) (Booking_objects db);
     Review_objects :=
       List.filter (fun r => negb (review_listing r =? key)%nat) (Review_objects db) |}.

#[global] Instance Listing_model : Model Listing := {|
  pk := listing_id;
  objects := Listing_objects;
  set_objects := fun rows db =>
    {| Listing_objects := rows;
       Booking_objects := Booking_objects db;
       Review_objects := Review_objects db |};
  on_delete := Listing_on_delete;
  one := ListingData;
  many := ListingList
|}.

#[global] Instance Booking_model : Model Booking := {|
  pk := booking_id;
  objects := Booking_objects;
  set_objects := fun rows db =>
    {| Listing_objects := Listing_objects db;
       Booking_objects := rows;
       Review_objects := Review_objects db |};
  on_delete := fun _ db => db;
  one := BookingData;
  many := BookingList
|}.

#[global] Instance Review_model : Model Review := {|
  pk := review_id;
  objects := Review_objects;
  set_objects := fun rows db =>
    {| Listing_objects := Listing_objects db;
       Booking_objects := Booking_objects db;
       Review_objects := rows |};
  on_delete := fun _ db => db;
  one := ReviewData;
  many := ReviewList
|}.

Module ORM.
Section ORM.
Context {M : Type} `{Model M}.

Definition pk_is (key : nat) (x : M) : bool := (pk x =? key)%nat.

(** [queryset.get(pk=key)] *)
Definition get (queryset : list M) (key : nat) : View M :=
  match List.filter (pk_is key) queryset with
  | [] => raise DoesNotExist
  | [x] => mret x
  | _ => raise MultipleObjectsReturned
  end.

(** [get_object_or_404(queryset, pk=key)] *)
Definition get_object_or_404 (queryset : list M) (key : nat) : View M :=
  fun db =>
    match get queryset key db with
    | (inl DoesNotExist, db') => (inl Http404, db')
    | r => r
    end.

(** [instance.save()]: update the row of this key, insert when there is
    none. *)
Definition save (x : M) : View unit :=
  fun db =>
    let rows := objects db in
    if existsb (pk_is (pk x)) rows
    then (inr tt, set_objects (map (fun y => if pk_is (pk x) y then x else y) rows) db)
    else (inr tt, set_objects (rows ++ [x]) db).

(** [instance.delete()] *)
Definition delete (x : M) : View unit :=
  fun db =>
    (inr tt,
     on_delete (pk x)
       (set_objects (List.filter (fun y => negb (pk_is (pk x) y)) (objects db)) db)).

(** The key the store gives to the next inserted row. *)
Definition next_pk (db : DB) : nat := S (list_max (map pk (objects db))).
End ORM.
End ORM.

(** ** Serializers *)

(** What the views use of a model serializer class.  [listings/serializers.py]
    is not among the sources, so field validation and attribute assignment
    are parameters; a row is represented by itself ([one], [many]). *)
Record ModelSerializer (M : Type) := {
  (* [run_validation(data)] for an optional instance and the [partial] flag *)
  run_validation : option M -> bool -> gmap string value -> option (gmap string value);
  (* [update(instance, validated_data)] before the row is saved *)
  update : M -> gmap string value -> M;
  (* [create(validated_data)] before the row is saved, for a fresh key *)
  create : nat -> gmap string value -> option M
}.
Arguments run_validation {M}.
Arguments update {M}.
Arguments create {M}.

(** A serializer object: [serializer.instance], [serializer.validated_data]. *)
Record Serializer (M : Type) := {
  instance : option M;
  validated_data : gmap string value
}.
Arguments instance {M}.
Arguments validated_data {M}.

(** Modelled from the spec: [listings/models.py] is not among the sources.
    The model constructor called with the validated data: listing, guest, stay dates and guest count
    come from the keyword arguments; a booking starts out pending unless a
    status is given. *)
Definition Booking_init (key : nat) (kw : gmap string value) : option Booking :=
  match kw !! "listing", kw !! "guest", kw !! "check_in", kw !! "check_out", kw !! "num_guests" with
  | Some (VRef l), Some (VUser (User g)), Some (VInt d1), Some (VInt d2), Some (VInt n) =>
      Some {| booking_id := key;
              booking_listing := l;
              guest := g;
              status := match kw !! "status" with Some (VStr s) => s | _ => "pending" end;
              check_in := d1;
              check_out := d2;
              num_guests := n |}
  | _, _, _, _, _ => None
  end.

(** ** Settings and the parts of the project that the views depend on *)

Inductive Authentication :=
| SessionAuthentication
| BasicAuthentication
| TokenAuthentication.

Definition authenticate_header (a : Authentication) : option string :=
  match a with
  | SessionAuthentication => None
  | BasicAuthentication => Some "Basic realm=api"
  | TokenAuthentication => Some "Token"
  end.

Record Env := {
  (* settings: DEFAULT_AUTHENTICATION_CLASSES *)
  authentication_classes : list Authentication;
  (* the store's coercion of a lookup value to the column type *)
  DecimalField_to_python : string -> option Q;
  IntegerField_to_python : string -> option Z;
  (* serializers.py *)
  ListingSerializer : ModelSerializer Listing;
  ReviewSerializer : ModelSerializer Review;
  BookingSerializer_run_validation :
    option Booking -> bool -> gmap string value -> option (gmap string value);
  BookingSerializer_update : Booking -> gmap string value -> Booking
}.

Definition BookingSerializer (env : Env) : ModelSerializer Booking :=
  {| run_validation := BookingSerializer_run_validation env;
     update := BookingSerializer_update env;
     create := Booking_init |}.

(** ** Permissions *)

Inductive permission :=
| IsAuthenticated
| IsAuthenticatedOrReadOnly.

Definition SAFE_METHODS (m : method) : bool :=
  match m with
  | GET | HEAD | OPTIONS => true
  | _ => false
  end.

Definition has_permission (p : permission) (m : method) (request : Request) : bool :=
  match p with
  | IsAuthenticated => is_authenticated (user request)
  | IsAuthenticatedOrReadOnly => SAFE_METHODS m || is_authenticated (user request)
  end.

(** ** A view set and the generic actions of [ModelViewSet] *)

Record ViewSet (M : Type) := {
  permission_classes : list permission;
  serializer_class : ModelSerializer M;
  get_queryset : Request -> View (list M);
  (* the hooks return what the Python method returns ([None] when it falls
     off its end) together with the serializer object they were given *)
  perform_create : Request -> Serializer M -> View (option HttpResponse * Serializer M);
  perform_update : Request -> Serializer M -> View (option HttpResponse * Serializer M);
  perform_destroy : Request -> M -> View (option HttpResponse)
}.
Arguments permission_classes {M}.
Arguments serializer_class {M}.
Arguments get_queryset {M}.
Arguments perform_create {M}.
Arguments perform_update {M}.
Arguments perform_destroy {M}.

Module Generic.
Section Generic.
Context {M : Type} `{Model M}.
Variable env : Env.

(** [request.successful_authenticator] is set exactly when an
    authenticator produced the user. *)
Definition successful_authenticator (request : Request) : bool :=
  is_authenticated (user request).

(** [APIView.permission_denied] *)
Definition permission_denied {A} (request : Request) : View A :=
  match authentication_classes env with
  | _ :: _ =>
      if negb (successful_authenticator request)
      then raise NotAuthenticated
      else raise PermissionDenied
  | [] => raise PermissionDenied
  end.

(** [APIView.check_permissions] *)
Fixpoint check_permissions (perms : list permission) (m : method)
    (request : Request) : View unit :=
  match perms with
  | [] => mret tt
  | p :: perms' =>
      if has_permission p m request
      then check_permissions perms' m request
      else permission_denied request
  end.

(** [APIView.get_authenticate_header] *)
Definition get_authenticate_header : option string :=
  match authentication_classes env with
  | a :: _ => authenticate_header a
  | [] => None
  end.

(** [APIView.handle_exception] with the default exception handler.  Other
    exceptions are raised again and answered by the server with 500. *)
Definition handle_exception (exc : exception) : HttpResponse :=
  match exc with
  | NotAuthenticated =>
      match get_authenticate_header with
      | Some _ => Response (Detail exc) HTTP_401_UNAUTHORIZED
      | None => Response (Detail exc) HTTP_403_FORBIDDEN
      end
  | PermissionDenied => Response (Detail exc) HTTP_403_FORBIDDEN
  | Http404 => Response (Detail exc) HTTP_404_NOT_FOUND
  | ValidationError => Response (Detail exc) HTTP_400_BAD_REQUEST
  | _ => Response (Detail exc) HTTP_500_INTERNAL_SERVER_ERROR
  end.

(** [APIView.dispatch]: [initial] (the permission check) runs before the
    handler; an exception from either becomes the response. *)
Definition dispatch (perms : list permission) (m : method) (request : Request)
    (handler : View HttpResponse) (db : DB) : HttpResponse * DB :=
  match (check_permissions perms m request;; handler) db with
  | (inr response, db') => (response, db')
  | (inl exc, db') => (handle_exception exc, db')
  end.

(** [serializer.is_valid(raise_exception=True)] on a fresh serializer of
    class [cls] *)
Definition get_valid_serializer (cls : ModelSerializer M) (inst : option M)
    (partial : bool) (request : Request) : View (Serializer M) :=
  match run_validation cls inst partial (data request) with
  | Some vd => mret {| instance := inst; validated_data := vd |}
  | None => raise ValidationError
  end.

(** [serializer.save] with keyword arguments: they override the
    validated data. *)
Definition save (cls : ModelSerializer M) (serializer : Serializer M)
    (kwargs : gmap string value) : View (Serializer M) :=
  let validated_data' := kwargs ∪ validated_data serializer in
  match instance serializer with
  | Some inst =>
      let inst' := update cls inst validated_data' in
      ORM.save inst';;
      mret {| instance := Some inst'; validated_data := validated_data serializer |}
  | None =>
      db ← get_db;
      match create cls (ORM.next_pk (M:=M) db) validated_data' with
      | Some inst' =>
          ORM.save inst';;
          mret {| instance := Some inst'; validated_data := validated_data serializer |}
      | None => raise IntegrityError
      end
  end.

Variable self : ViewSet M.

(** [GenericAPIView.get_object]: the lookup goes through [get_queryset]
    (no filter backend is configured); neither permission class used here
    overrides [has_object_permission], so the object check passes. *)
Definition get_object (request : Request) (key : nat) : View M :=
  queryset ← get_queryset self request;
  ORM.get_object_or_404 queryset key.

(** [serializer.data] *)
Definition serializer_data (serializer : Serializer M) : content :=
  match instance serializer with
  | Some inst => one inst
  | None => Unsaved (validated_data serializer)
  end.

(** [ListModelMixin.list] (no pagination class is configured) *)
Definition ListModelMixin_list (request : Request) : View HttpResponse :=
  queryset ← get_queryset self request;
  mret (Response (many queryset) HTTP_200_OK).

(** [RetrieveModelMixin.retrieve] *)
Definition RetrieveModelMixin_retrieve (request : Request) (key : nat)
    : View HttpResponse :=
  inst ← get_object request key;
  mret (Response (one inst) HTTP_200_OK).

(** [CreateModelMixin.create]: what [perform_create] returns is dropped. *)
Definition CreateModelMixin_create (request : Request) : View HttpResponse :=
  serializer ← get_valid_serializer (serializer_class self) None false request;
  '(_, serializer') ← perform_create self request serializer;
  mret (Response (serializer_data serializer') HTTP_201_CREATED).

(** [UpdateModelMixin.update]: what [perform_update] returns is dropped. *)
Definition UpdateModelMixin_update (request : Request) (key : nat)
    (partial : bool) : View HttpResponse :=
  inst ← get_object request key;
  serializer ← get_valid_serializer (serializer_class self) (Some inst) partial request;
  '(_, serializer') ← perform_update self request serializer;
  mret (Response (serializer_data serializer') HTTP_200_OK).

(** [DestroyModelMixin.destroy]: what [perform_destroy] returns is
    dropped. *)
Definition DestroyModelMixin_destroy (request : Request) (key : nat)
    : View HttpResponse :=
  inst ← get_object request key;
  perform_destroy self request inst;;
  mret (Response NoContent HTTP_204_NO_CONTENT).

(** The hooks a [ModelViewSet] has when the view set does not override
    them. *)
Definition ModelViewSet_perform_update (cls : ModelSerializer M)
    (request : Request) (serializer : Serializer M)
    : View (option HttpResponse * Serializer M) :=
  serializer' ← save cls serializer ∅;
  mret (None, serializer').

Definition ModelViewSet_perform_destroy (request : Request) (inst : M)
    : View (option HttpResponse) :=
  ORM.delete inst;;
  mret None.
End Generic.
End Generic.

(** ** Truthiness of an optional query parameter *)

(** [if v:] for [v = query_params.get(name)]: a missing parameter ([None])
    and the empty string are both false. *)
Definition truthy (v : option string) : bool :=
  match v with
  | Some (String _ _) => true
  | _ => false
  end.

Definition str (v : option string) : string := default "" v.

(** [stored == request.user] *)
Definition user_eq (stored : nat) (u : Principal) : bool := negb (user_ne stored u).

(** ** [ListingViewSet] *)

Module ListingViewSet.
Section ListingViewSet.
Variable env : Env.

Definition permission_classes : list permission := [IsAuthenticatedOrReadOnly].

Definition serializer_class : ModelSerializer Listing := ListingSerializer env.

Definition perform_create (request : Request) (serializer : Serializer Listing)
    : View (option HttpResponse * Serializer Listing) :=
  serializer' ← Generic.save serializer_class serializer {[ "owner" := VUser (user request) ]};
  mret (None, serializer').

(** The tests of [queryset.filter(listing_type=v)],
    [queryset.filter(location__icontains=v)] and of the three-way
    disjunction of the search. *)
Definition listing_type__exact (v : string) (l : Listing) : bool :=
  String.eqb (listing_type l) v.

Definition location__icontains (v : string) (l : Listing) : bool :=
  Text.icontains (location l) v.

Definition search_Q (v : string) (l : Listing) : bool :=
  Text.icontains (title l) v
  || Text.icontains (description l) v
  || Text.icontains (location l) v.

(** [queryset.filter(price_per_night__gte=v)] *)
Definition price_per_night__gte (v : string) (queryset : list Listing)
    : View (list Listing) :=
  match DecimalField_to_python env v with
  | Some d => mret (List.filter (fun l => Qle_bool d (price_per_night l)) queryset)
  | None => raise LookupValueError
  end.

(** [queryset.filter(price_per_night__lte=v)] *)
Definition price_per_night__lte (v : string) (queryset : list Listing)
    : View (list Listing) :=
  match DecimalField_to_python env v with
  | Some d => mret (List.filter (fun l => Qle_bool (price_per_night l) d) queryset)
  | None => raise LookupValueError
  end.

(** [queryset.filter(max_guests__gte=v)] *)
Definition max_guests__gte (v : string) (queryset : list Listing)
    : View (list Listing) :=
  match IntegerField_to_python env v with
  | Some n => mret (List.filter (fun l => (n <=? max_guests l)%Z) queryset)
  | None => raise LookupValueError
  end.

Definition get_queryset (request : Request) : View (list Listing) :=
  db ← get_db;
  let queryset := List.filter is_active (Listing_objects db) in
  (* Filter by listing type *)
  let listing_type_ := query_params request !! "type" in
  let queryset :=
    if truthy listing_type_
    then List.filter (listing_type__exact (str listing_type_)) queryset
    else queryset in
  (* Filter by location *)
  let location_ := query_params request !! "location" in
  let queryset :=
    if truthy location_
    then List.filter (location__icontains (str location_)) queryset
    else queryset in
  (* Filter by price range *)
  let min_price := query_params request !! "min_price" in
  queryset ←
    (if truthy min_price
     then price_per_night__gte (str min_price) queryset
     else mret queryset);
  let max_price := query_params request !! "max_price" in
  queryset ←
    (if truthy max_price
     then price_per_night__lte (str max_price) queryset
     else mret queryset);
  (* Filter by number of guests *)
  let guests := query_params request !! "guests" in
  queryset ←
    (if truthy guests
     then max_guests__gte (str guests) queryset
     else mret queryset);
  (* Search functionality *)
  let search := query_params request !! "search" in
  let queryset :=
    if truthy search
    then List.filter (search_Q (str search)) queryset
    else queryset in
  mret queryset.

(** Only allow owners to update their own listings *)
Definition perform_update (request : Request) (serializer : Serializer Listing)
    : View (option HttpResponse * Serializer Listing) :=
  match instance serializer with
  | None => raise AttributeError
  | Some inst =>
      if user_ne (owner inst) (user request)
      then mret (Some (Response (Error "You can only update your own listings")
                         HTTP_403_FORBIDDEN),
                 serializer)
      else
        serializer' ← Generic.save serializer_class serializer ∅;
        mret (None, serializer')
  end.

(** Only allow owners to delete their own listings *)
Definition perform_destroy (request : Request) (inst : Listing)
    : View (option HttpResponse) :=
  if user_ne (owner inst) (user request)
  then mret (Some (Response (Error "You can only delete your own listings")
                     HTTP_403_FORBIDDEN))
  else
    ORM.delete inst;;
    mret None.

Definition self : ViewSet Listing :=
  Build_ViewSet Listing permission_classes serializer_class get_queryset
    perform_create perform_update perform_destroy.

(** Get all reviews for a specific listing *)
Definition reviews (request : Request) (key : nat) : View HttpResponse :=
  listing ← Generic.get_object self request key;
  db ← get_db;
  let reviews := List.filter (fun r => (review_listing r =? listing_id listing)%nat)
                   (Review_objects db) in
  mret (Response (many reviews) HTTP_200_OK).

(** Get all bookings for a specific listing (owner only) *)
Definition bookings (request : Request) (key : nat) : View HttpResponse :=
  listing ← Generic.get_object self request key;
  if user_ne (owner listing) (user request)
  then mret (Response (Error "Permission denied") HTTP_403_FORBIDDEN)
  else
    db ← get_db;
    let bookings := List.filter (fun b => (booking_listing b =? listing_id listing)%nat)
                      (Booking_objects db) in
    mret (Response (many bookings) HTTP_200_OK).

(** The routes of the view set, each with the method it is bound to. *)
Definition GET_list (request : Request) :=
  Generic.dispatch env permission_classes GET request
    (Generic.ListModelMixin_list self request).
Definition POST_create (request : Request) :=
  Generic.dispatch env permission_classes POST request
    (Generic.CreateModelMixin_create self request).
Definition GET_retrieve (request : Request) (key : nat) :=
  Generic.dispatch env permission_classes GET request
    (Generic.RetrieveModelMixin_retrieve self request key).
Definition PUT_update (request : Request) (key : nat) :=
  Generic.dispatch env permission_classes PUT request
    (Generic.UpdateModelMixin_update self request key false).
Definition PATCH_partial_update (request : Request) (key : nat) :=
  Generic.dispatch env permission_classes PATCH request
    (Generic.UpdateModelMixin_update self request key true).
Definition DELETE_destroy (request : Request) (key : nat) :=
  Generic.dispatch env permission_classes DELETE request
    (Generic.DestroyModelMixin_destroy self request key).
Definition GET_reviews (request : Request) (key : nat) :=
  Generic.dispatch env permission_classes GET request (reviews request key).
Definition GET_bookings (request : Request) (key : nat) :=
  Generic.dispatch env permission_classes GET request (bookings request key).
End ListingViewSet.
End ListingViewSet.

(** ** [BookingViewSet] *)

Module BookingViewSet.
Section BookingViewSet.
Variable env : Env.

Definition permission_classes : list permission := [IsAuthenticated].

Definition serializer_class : ModelSerializer Booking := BookingSerializer env.

Definition perform_create (request : Request) (serializer : Serializer Booking)
    : View (option HttpResponse * Serializer Booking) :=
  serializer' ← Generic.save serializer_class serializer {[ "guest" := VUser (user request) ]};
  mret (None, serializer').

(** The booking rows joined with the listing row each references, as the
    lookup [listing__owner] reads them. *)
Definition join_listing (db : DB) : list (Booking * Listing) :=
  flat_map
    (fun b => map (pair b)
                (List.filter (fun l => (listing_id l =? booking_listing b)%nat)
                   (Listing_objects db)))
    (Booking_objects db).

(** Users can only see their own bookings (as guest) or bookings for
    their listings (as owner) *)
Definition get_queryset (swagger_fake_view : bool) (request : Request)
    : View (list Booking) :=
  (* Handle Swagger schema generation *)
  if swagger_fake_view then mret []
  (* Handle unauthenticated users *)
  else if negb (is_authenticated (user request)) then mret []
  else
    let user_ := user request in
    db ← get_db;
    mret (remove_dups
            (map fst
               (List.filter
                  (fun bl => user_eq (guest (fst bl)) user_
                             || user_eq (owner (snd bl)) user_)
                  (join_listing db)))).

(** The attribute [swagger_fake_view] is only set while a schema is
    generated; a view serving a request does not have it. *)
Definition self : ViewSet Booking :=
  Build_ViewSet Booking permission_classes serializer_class (get_queryset false)
    perform_create
    (Generic.ModelViewSet_perform_update serializer_class)
    Generic.ModelViewSet_perform_destroy.

Definition valid_statuses : list string :=
  ["pending"; "confirmed"; "cancelled"; "completed"].

(** [new_status in valid_statuses] for [new_status = request.data.get('status')] *)
Definition status_in (new_status : option value) (l : list string) : bool :=
  match new_status with
  | Some (VStr s) => existsb (String.eqb s) l
  | _ => false
  end.

(** The text of a value that [status_in] accepted. *)
Definition as_str (v : option value) : string :=
  match v with
  | Some (VStr s) => s
  | _ => ""
  end.

(** [booking.status = s] *)
Definition set_status (booking : Booking) (s : string) : Booking :=
  {| booking_id := booking_id booking;
     booking_listing := booking_listing booking;
     guest := guest booking;
     status := s;
     check_in := check_in booking;
     check_out := check_out booking;
     num_guests := num_guests booking |}.

(** Update booking status (owner only) *)
Definition update_status (request : Request) (key : nat) : View HttpResponse :=
  booking ← Generic.get_object self request key;
  (* booking.listing *)
  db ← get_db;
  listing ← ORM.get (Listing_objects db) (booking_listing booking);
  (* Only listing owner can update booking status *)
  if user_ne (owner listing) (user request)
  then mret (Response (Error "Only listing owner can update booking status")
               HTTP_403_FORBIDDEN)
  else
    let new_status := data request !! "status" in
    if negb (status_in new_status valid_statuses)
    then mret (Response (Error "Invalid status") HTTP_400_BAD_REQUEST)
    else
      let booking' := set_status booking (as_str new_status) in
      ORM.save booking';;
      mret (Response (one booking') HTTP_200_OK).

Definition GET_list (request : Request) :=
  Generic.dispatch env permission_classes GET request
    (Generic.ListModelMixin_list self request).
Definition POST_create (request : Request) :=
  Generic.dispatch env permission_classes POST request
    (Generic.CreateModelMixin_create self request).
Definition GET_retrieve (request : Request) (key : nat) :=
  Generic.dispatch env permission_classes GET request
    (Generic.RetrieveModelMixin_retrieve self request key).
Definition PATCH_update_status (request : Request) (key : nat) :=
  Generic.dispatch env permission_classes PATCH request (update_status request key).
(* the update and destroy actions are inherited unchanged *)
Definition PUT_update (request : Request) (key : nat) :=
  Generic.dispatch env permission_classes PUT request
    (Generic.UpdateModelMixin_update self request key false).
Definition PATCH_partial_update (request : Request) (key : nat) :=
  Generic.dispatch env permission_classes PATCH request
    (Generic.UpdateModelMixin_update self request key true).
Definition DELETE_destroy (request : Request) (key : nat) :=
  Generic.dispatch env permission_classes DELETE request
    (Generic.DestroyModelMixin_destroy self request key).
End BookingViewSet.
End BookingViewSet.

(** ** [ReviewViewSet] *)

Module ReviewViewSet.
Section ReviewViewSet.
Variable env : Env.

Definition permission_classes : list permission := [IsAuthenticated].

Definition serializer_class : ModelSerializer Review := ReviewSerializer env.

Definition perform_create (request : Request) (serializer : Serializer Review)
    : View (option HttpResponse * Serializer Review) :=
  serializer' ← Generic.save serializer_class serializer {[ "reviewer" := VUser (user request) ]};
  mret (None, serializer').

(** [queryset.filter(listing_id=v)] *)
Definition listing_id__exact (v : string) (queryset : list Review)
    : View (list Review) :=
  match IntegerField_to_python env v with
  | Some n => mret (List.filter (fun r => (Z.of_nat (review_listing r) =? n)%Z) queryset)
  | None => raise LookupValueError
  end.

(** Filter reviews by listing if specified *)
Definition get_queryset (request : Request) : View (list Review) :=
  db ← get_db;
  let queryset := Review_objects db in
  let listing_id_ := query_params request !! "listing" in
  queryset ←
    (if truthy listing_id_
     then listing_id__exact (str listing_id_) queryset
     else mret queryset);
  mret queryset.

(** Only allow users to update their own reviews *)
Definition perform_update (request : Request) (serializer : Serializer Review)
    : View (option HttpResponse * Serializer Review) :=
  match instance serializer with
  | None => raise AttributeError
  | Some inst =>
      if user_ne (reviewer inst) (user request)
      then mret (Some (Response (Error "You can only update your own reviews")
                         HTTP_403_FORBIDDEN),
                 serializer)
      else
        serializer' ← Generic.save serializer_class serializer ∅;
        mret (None, serializer')
  end.

(** Only allow users to delete their own reviews *)
Definition perform_destroy (request : Request) (inst : Review)
    : View (option HttpResponse) :=
  if user_ne (reviewer inst) (user request)
  then mret (Some (Response (Error "You can only delete your own reviews")
                     HTTP_403_FORBIDDEN))
  else
    ORM.delete inst;;
    mret None.

Definition self : ViewSet Review :=
  Build_ViewSet Review permission_classes serializer_class get_queryset
    perform_create perform_update perform_destroy.

Definition GET_list (request : Request) :=
  Generic.dispatch env permission_classes GET request
    (Generic.ListModelMixin_list self request).
Definition POST_create (request : Request) :=
  Generic.dispatch env permission_classes POST request
    (Generic.CreateModelMixin_create self request).
Definition GET_retrieve (request : Request) (key : nat) :=
  Generic.dispatch env permission_classes GET request
    (Generic.RetrieveModelMixin_retrieve self request key).
Definition PUT_update (request : Request) (key : nat) :=
  Generic.dispatch env permission_classes PUT request
    (Generic.UpdateModelMixin_update self request key false).
Definition PATCH_partial_update (request : Request) (key : nat) :=
  Generic.dispatch env permission_classes PATCH request
    (Generic.UpdateModelMixin_update self request key true).
Definition DELETE_destroy (request : Request) (key : nat) :=
  Generic.dispatch env permission_classes DELETE request
    (Generic.DestroyModelMixin_destroy self request key).
End ReviewViewSet.
End ReviewViewSet.

(** ** The listing search as the specification words it *)

Module Spec.

(** The optional filters of a listing search. *)
Record Filters := {
  f_type : option string;
  f_location : option string;
  f_min_price : option Q;
  f_max_price : option Q;
  f_guests : option Z;
  f_search : option string
}.

(** An absent filter imposes no constraint. *)
Definition holds {A} (filter : option A) (test : A -> bool) : bool :=
  match filter with
  | None => true
  | Some a => test a
  end.

(** A listing satisfies every supplied filter: exact type, location as a
    case-insensitive substring, inclusive price bounds, capacity at least
    the requested guests, and the search text as a case-insensitive
    substring of the title, the description or the location. *)
Definition satisfies (f : Filters) (l : Listing) : bool :=
  is_active l
  && holds (f_type f) (fun t => String.eqb (listing_type l) t)
  && holds (f_location f) (fun s => Text.icontains (location l) s)
  && holds (f_min_price f) (fun d => Qle_bool d (price_per_night l))
  && holds (f_max_price f) (fun d => Qle_bool (price_per_night l) d)
  && holds (f_guests f) (fun n => (n <=? max_guests l)%Z)
  && holds (f_search f)
       (fun s => Text.icontains (title l) s
                 || Text.icontains (description l) s
                 || Text.icontains (location l) s).

Definition list_listings (f : Filters) (db : DB) : list Listing :=
  List.filter (satisfies f) (Listing_objects db).

(** Reading a numeric filter: an absent one is absent, a present one must
    be a number of the column's type. *)
Definition number {A} (to_python : string -> option A) (v : option string)
    : option (option A) :=
  match v with
  | None => Some None
  | Some s =>
      match to_python s with
      | Some a => Some (Some a)
      | None => None
      end
  end.

(** The filters a query string gives, for a reading [pick] of which
    parameters count as supplied. *)
Definition filters (pick : option string -> option string) (env : Env)
    (params : gmap string string) : option Filters :=
  match number (DecimalField_to_python env) (pick (params !! "min_price")),
        number (DecimalField_to_python env) (pick (params !! "max_price")),
        number (IntegerField_to_python env) (pick (params !! "guests")) with
  | Some lo, Some hi, Some g =>
      Some {| f_type := pick (params !! "type");
              f_location := pick (params !! "location");
              f_min_price := lo;
              f_max_price := hi;
              f_guests := g;
              f_search := pick (params !! "search") |}
  | _, _, _ => None
  end.

(** Every parameter present in the query string is a supplied filter. *)
Definition present (v : option string) : option string := v.

(** Only a parameter that is present and not empty is a supplied filter. *)
Definition nonempty (v : option string) : option string :=
  match v with
  | Some (String _ _) => v
  | _ => None
  end.

End Spec.

(** ** A small installation, for examples *)

Module Sample.

Definition digit (c : ascii) : option Z :=
  let n := nat_of_ascii c in
  if (48 <=? n)%nat && (n <=? 57)%nat then Some (Z.of_nat (n - 48)) else None.

Fixpoint digits (s : string) (acc : Z) : option Z :=
  match s with
  | EmptyString => Some acc
  | String c s' =>
      match digit c with
      | Some d => digits s' (10 * acc + d)%Z
      | None => None
      end
  end.

(** A store that reads plain runs of decimal digits. *)
Definition to_int (s : string) : option Z :=
  match s with
  | EmptyString => None
  | _ => digits s 0%Z
  end.

Definition to_decimal (s : string) : option Q := inject_Z <$> to_int s.

Definition set_title (l : Listing) (t : string) : Listing :=
  {| listing_id := listing_id l; owner := owner l; title := t;
     description := description l; location := location l;
     listing_type := listing_type l; price_per_night := price_per_night l;
     max_guests := max_guests l; is_active := is_active l |}.

Definition set_comment (r : Review) (c : string) : Review :=
  {| review_id := review_id r; review_listing := review_listing r;
     reviewer := reviewer r; rating := rating r; comment := c |}.

(** Serializers that accept any payload; an update writes the title of a
    listing and the comment of a review. *)
Definition listing_serializer : ModelSerializer Listing :=
  {| run_validation := fun _ _ d => Some d;
     update := fun l vd =>
       match vd !! "title" with Some (VStr t) => set_title l t | _ => l end;
     create := fun _ _ => None |}.

Definition review_serializer : ModelSerializer Review :=
  {| run_validation := fun _ _ d => Some d;
     update := fun r vd =>
       match vd !! "comment" with Some (VStr c) => set_comment r c | _ => r end;
     create := fun _ _ => None |}.

Definition env : Env :=
  {| authentication_classes := [SessionAuthentication; BasicAuthentication];
     DecimalField_to_python := to_decimal;
     IntegerField_to_python := to_int;
     ListingSerializer := listing_serializer;
     ReviewSerializer := review_serializer;
     BookingSerializer_run_validation := fun _ _ d => Some d;
     BookingSerializer_update := fun b _ => b |}.

(** Users: 1 is the host, 2 a guest, 3 somebody else. *)
Definition host : nat := 1.
Definition visitor : nat := 2.
Definition stranger : nat := 3.

Definition loft : Listing :=
  {| listing_id := 1; owner := host; title := "Loft"; description := "Sunny loft";
     location := "Austin"; listing_type := "apartment";
     price_per_night := inject_Z 100; max_guests := 2; is_active := true |}.

Definition cabin : Listing :=
  {| listing_id := 2; owner := host; title := "Cabin"; description := "Closed for winter";
     location := "Aspen"; listing_type := "house";
     price_per_night := inject_Z 250; max_guests := 6; is_active := false |}.

Definition stay : Booking :=
  {| booking_id := 1; booking_listing := 1; guest := visitor; status := "pending";
     check_in := 10; check_out := 12; num_guests := 2 |}.

Definition praise : Review :=
  {| review_id := 1; review_listing := 1; reviewer := visitor; rating := 5;
     comment := "Lovely" |}.

Definition db : DB :=
  {| Listing_objects := [loft; cabin];
     Booking_objects := [stay];
     Review_objects := [praise] |}.

Definition request (u : Principal) (params : gmap string string)
    (body : gmap string value) : Request :=
  {| user := u; query_params := params; data := body |}.

Definition no_filters : Spec.Filters :=
  {| Spec.f_type := None;
     Spec.f_location := None;
     Spec.f_min_price := None;
     Spec.f_max_price := None;
     Spec.f_guests := None;
     Spec.f_search := None |}.

(** The search of the specification's scenario: between 50 and 150 a
    night, in austin. *)
Definition scenario_request : Request :=
  request AnonymousUser
    {[ "min_price" := "50"; "max_price" := "150"; "location" := "austin" ]} ∅.

Definition scenario_filters : Spec.Filters :=
  {| Spec.f_type := None;
     Spec.f_location := Some "austin";
     Spec.f_min_price := Some (inject_Z 50);
     Spec.f_max_price := Some (inject_Z 150);
     Spec.f_guests := None;
     Spec.f_search := None |}.

(** A search whose [type] parameter is present and empty. *)
Definition empty_type_request : Request :=
  request AnonymousUser {[ "type" := "" ]} ∅.

Definition empty_type_filters : Spec.Filters :=
  {| Spec.f_type := Some "";
     Spec.f_location := None;
     Spec.f_min_price := None;
     Spec.f_max_price := None;
     Spec.f_guests := None;
     Spec.f_search := None |}.

(** A listing built from validated data that name an owner and a title. *)
Definition listing_init (key : nat) (kw : gmap string value) : option Listing :=
  match kw !! "owner", kw !! "title" with
  | Some (VUser (User o)), Some (VStr t) =>
      Some {| listing_id := key; owner := o; title := t; description := "";
              location := ""; listing_type := "apartment";
              price_per_night := inject_Z 0; max_guests := 1; is_active := true |}
  | _, _ => None
  end.

(** A review built from validated data that name a reviewer and a listing. *)
Definition review_init (key : nat) (kw : gmap string value) : option Review :=
  match kw !! "reviewer", kw !! "listing" with
  | Some (VUser (User r)), Some (VRef l) =>
      Some {| review_id := key; review_listing := l; reviewer := r; rating := 3;
              comment := "" |}
  | _, _ => None
  end.

(** The installation with serializers that can also create rows, and that
    reject a payload without a title or without a listing. *)
Definition env_creating : Env :=
  {| authentication_classes := [SessionAuthentication; BasicAuthentication];
     DecimalField_to_python := to_decimal;
     IntegerField_to_python := to_int;
     ListingSerializer :=
       {| run_validation := fun _ _ d =>
            match d !! "title" with Some (VStr _) => Some d | _ => None end;
          update := update listing_serializer;
          create := listing_init |};
     ReviewSerializer :=
       {| run_validation := fun _ _ d => Some d;
          update := update review_serializer;
          create := review_init |};
     BookingSerializer_run_validation := fun _ _ d =>
       match d !! "listing" with Some (VRef _) => Some d | _ => None end;
     BookingSerializer_update := fun b _ => b |}.

End Sample.

(** ** The routes together *)

(** A handler that leaves the store as it found it, whatever it answers. *)
Definition readonly {A} (m : View A) : Prop := forall db, snd (m db) = db.

Module Routes.

(** The routes bound to [GET]. *)
Definition reads (env : Env) (request : Request) (key : nat)
    : list (DB -> HttpResponse * DB) :=
  [ ListingViewSet.GET_list env request;
    ListingViewSet.GET_retrieve env request key;
    ListingViewSet.GET_reviews env request key;
    ListingViewSet.GET_bookings env request key;
    BookingViewSet.GET_list env request;
    BookingViewSet.GET_retrieve env request key;
    ReviewViewSet.GET_list env request;
    ReviewViewSet.GET_retrieve env request key ].

(** The routes bound to [POST], [PUT], [PATCH] and [DELETE]. *)
Definition writes (env : Env) (request : Request) (key : nat)
    : list (DB -> HttpResponse * DB) :=
  [ ListingViewSet.POST_create env request;
    ListingViewSet.PUT_update env request key;
    ListingViewSet.PATCH_partial_update env request key;
    ListingViewSet.DELETE_destroy env request key;
    BookingViewSet.POST_create env request;
    BookingViewSet.PATCH_update_status env request key;
    BookingViewSet.PUT_update env request key;
    BookingViewSet.PATCH_partial_update env request key;
    BookingViewSet.DELETE_destroy env request key;
    ReviewViewSet.POST_create env request;
    ReviewViewSet.PUT_update env request key;
    ReviewViewSet.PATCH_partial_update env request key;
    ReviewViewSet.DELETE_destroy env request key ].

End Routes.

(** * Properties *)

(** ** Text *)

Lemma prefix_app (p s : string) :
  String.prefix p s = true <-> exists post, s = p ++ post.
Proof.
  revert s. induction p as [|c p IH]; intros s.
  - split; [intros _; exists s; reflexivity | destruct s; reflexivity].
  - destruct s as [|d s]; simpl.
    + split; [discriminate | intros [post H]; discriminate].
    + destruct (Ascii.ascii_dec c d) as [->|Hne].
      * rewrite IH. split; intros [post H]; exists post.
        -- now rewrite H.
        -- now inversion H.
      * split; [discriminate | intros [post H]; inversion H; congruence].
Qed.

Lemma contains_app (s pat : string) :
  Text.contains s pat = true <-> exists pre post, s = pre ++ pat ++ post.
Proof.
  induction s as [|c s IH]; cbn [Text.contains].
  - rewrite orb_false_r. etransitivity; [apply prefix_app|]. split.
    + intros [post H]. exists "", post. exact H.
    + intros [pre [post H]]. destruct pre; simpl in H.
      * exists post. exact H.
      * discriminate.
  - rewrite orb_true_iff, IH.
    split.
    + intros [H|[pre [post H]]].
      * apply prefix_app in H as [post H]. exists "", post. exact H.
      * exists (String c pre), post. simpl. now rewrite H.
    + intros [pre [post H]]. destruct pre as [|d pre]; simpl in H.
      * left. apply prefix_app. exists post. exact H.
      * right. inversion H. exists pre, post. reflexivity.
Qed.

Lemma contains_empty (s : string) : Text.contains s "" = true.
Proof. destruct s; reflexivity. Qed.

Lemma icontains_empty (s : string) : Text.icontains s "" = true.
Proof. apply contains_empty. Qed.

(** Case-insensitive substring: the folded pattern occurs in the folded
    field. *)
Lemma icontains_spec (field pat : string) :
  Text.icontains field pat = true <->
  exists pre post, Text.lower field = pre ++ Text.lower pat ++ post.
Proof. apply contains_app. Qed.

(** ** Lists and keys *)

Section KeyLemmas.
Context {M : Type} `{Model M}.

Lemma filter_filter_and {A} (p q : A -> bool) (l : list A) :
  List.filter p (List.filter q l) = List.filter (fun x => q x && p x) l.
Proof.
  induction l as [|x l IH]; simpl; [reflexivity|].
  destruct (q x); simpl; [destruct (p x)|]; now rewrite IH.
Qed.

Lemma filter_none {A} (p : A -> bool) (l : list A) :
  (forall x, In x l -> p x = false) -> List.filter p l = [].
Proof.
  induction l as [|x l IH]; simpl; intros Hall; [reflexivity|].
  rewrite (Hall x (or_introl eq_refl)). apply IH. intros y Hy. apply Hall. now right.
Qed.

(** A key names at most one row of a table with unique keys. *)
Lemma filter_pk_unique (rows : list M) (x : M) :
  NoDup (map pk rows) -> In x rows ->
  List.filter (ORM.pk_is (pk x)) rows = [x].
Proof.
  induction rows as [|y rows IH]; simpl; intros Hnd Hin; [contradiction|].
  apply NoDup_cons in Hnd as [Hnotin Hnd]. rewrite list_elem_of_In in Hnotin.
  destruct Hin as [->|Hin].
  - unfold ORM.pk_is at 1. rewrite Nat.eqb_refl. f_equal.
    apply filter_none. intros z Hz. unfold ORM.pk_is.
    apply Nat.eqb_neq. intros Heq. apply Hnotin. rewrite <- Heq.
    now apply in_map.
  - destruct (ORM.pk_is (pk x) y) eqn:Hy.
    + exfalso. apply Hnotin. unfold ORM.pk_is in Hy.
      apply Nat.eqb_eq in Hy. rewrite Hy. now apply in_map.
    + now apply IH.
Qed.

Lemma unique_pk_inj (rows : list M) (x y : M) :
  NoDup (map pk rows) -> In x rows -> In y rows -> pk x = pk y -> x = y.
Proof.
  intros Hnd Hx Hy Heq.
  pose proof (filter_pk_unique rows x Hnd Hx) as Fx.
  pose proof (filter_pk_unique rows y Hnd Hy) as Fy.
  rewrite Heq in Fx. congruence.
Qed.

Lemma unique_pk_sub (rows qs : list M) :
  NoDup (map pk rows) -> NoDup qs -> (forall x, In x qs -> In x rows) ->
  NoDup (map pk qs).
Proof.
  intros Hnd Hqs Hsub. induction Hqs as [|x qs Hx Hqs IH]; simpl.
  - constructor.
  - rewrite list_elem_of_In in Hx. constructor.
    + rewrite list_elem_of_In. intros Hin. apply in_map_iff in Hin as [y [Heq Hy]].
      assert (y = x) as Hyx.
      { apply (unique_pk_inj rows); auto.
        - apply Hsub. now right.
        - apply Hsub. now left. }
      subst y. contradiction.
    + apply IH. intros y Hy. apply Hsub. now right.
Qed.

(** Looking a row up by its key in a query set that holds it. *)
Lemma get_object_or_404_found (qs : list M) (x : M) (db : DB) :
  NoDup (map pk qs) -> In x qs ->
  ORM.get_object_or_404 qs (pk x) db = (inr x, db).
Proof.
  intros Hnd Hin. unfold ORM.get_object_or_404, ORM.get.
  now rewrite (filter_pk_unique qs x Hnd Hin).
Qed.

(** Looking a key up in a query set that has no row of that key. *)
Lemma get_object_or_404_missing (qs : list M) (key : nat) (db : DB) :
  (forall x, In x qs -> pk x <> key) ->
  ORM.get_object_or_404 qs key db = (inl Http404, db).
Proof.
  intros Hall. unfold ORM.get_object_or_404, ORM.get.
  rewrite filter_none; [reflexivity|].
  intros x Hx. unfold ORM.pk_is. apply Nat.eqb_neq. now apply Hall.
Qed.

Lemma get_found (rows : list M) (x : M) (db : DB) :
  NoDup (map pk rows) -> In x rows -> ORM.get rows (pk x) db = (inr x, db).
Proof.
  intros Hnd Hin. unfold ORM.get.
  now rewrite (filter_pk_unique rows x Hnd Hin).
Qed.

End KeyLemmas.

(** ** The listing query set *)

Ltac view_unfold :=
  unfold mbind, mret, View_bind, View_ret, raise, get_db, put_db in *.

Section ListingQuery.
Variable env : Env.

Lemma text_step (v : option string) (test : string -> Listing -> bool)
    (rows : list Listing) :
  (if truthy v then List.filter (test (str v)) rows else rows)
  = List.filter (fun l => Spec.holds (Spec.nonempty v) (fun s => test s l)) rows.
Proof.
  destruct v as [[|c s]|]; simpl; try reflexivity;
    induction rows as [|x rows IH]; simpl; congruence.
Qed.

Lemma number_step {A} (to_python : string -> option A) (v : option string)
    (lookup : string -> list Listing -> View (list Listing))
    (test : A -> Listing -> bool) (rows : list Listing) (db : DB) :
  (forall s qs, lookup s qs =
     match to_python s with
     | Some a => mret (List.filter (test a) qs)
     | None => raise LookupValueError
     end) ->
  (if truthy v then lookup (str v) rows else mret rows) db
  = match Spec.number to_python (Spec.nonempty v) with
    | Some o => (inr (List.filter (fun l => Spec.holds o (fun a => test a l)) rows), db)
    | None => (inl LookupValueError, db)
    end.
Proof.
  intros Hlookup. destruct v as [[|c s]|]; simpl.
  - view_unfold. f_equal. induction rows as [|x rows IH]; simpl; congruence.
  - rewrite Hlookup. destruct (to_python (String c s)); reflexivity.
  - view_unfold. f_equal. induction rows as [|x rows IH]; simpl; congruence.
Qed.

(** The query set is the active listings that pass every filter whose
    parameter is present and not empty. *)
Lemma get_queryset_filters (request : Request) (db : DB) (f : Spec.Filters) :
  Spec.filters Spec.nonempty env (query_params request) = Some f ->
  ListingViewSet.get_queryset env request db = (inr (Spec.list_listings f db), db).
Proof.
  unfold Spec.filters, ListingViewSet.get_queryset. intros Hf.
  unfold mbind, View_bind, get_db. cbv beta iota zeta.
  rewrite !text_step.
  rewrite (number_step (DecimalField_to_python env) _ _
             (fun d l => Qle_bool d (price_per_night l))) by reflexivity.
  destruct (Spec.number (DecimalField_to_python env)
              (Spec.nonempty (query_params request !! "min_price"))) as [lo|];
    [|discriminate].
  rewrite (number_step (DecimalField_to_python env) _ _
             (fun d l => Qle_bool (price_per_night l) d)) by reflexivity.
  destruct (Spec.number (DecimalField_to_python env)
              (Spec.nonempty (query_params request !! "max_price"))) as [hi|];
    [|discriminate].
  rewrite (number_step (IntegerField_to_python env) _ _
             (fun n l => (n <=? max_guests l)%Z)) by reflexivity.
  destruct (Spec.number (IntegerField_to_python env)
              (Spec.nonempty (query_params request !! "guests"))) as [g|];
    [|discriminate].
  injection Hf as <-. unfold mret, View_ret. f_equal. f_equal.
  rewrite text_step, !filter_filter_and.
  unfold Spec.list_listings, Spec.satisfies. simpl.
  apply filter_ext. intros l. now rewrite !andb_assoc.
Qed.

(** A numeric parameter the store cannot read makes the lookup raise. *)
Lemma get_queryset_bad_number (request : Request) (db : DB) :
  Spec.filters Spec.nonempty env (query_params request) = None ->
  ListingViewSet.get_queryset env request db = (inl LookupValueError, db).
Proof.
  unfold Spec.filters, ListingViewSet.get_queryset. intros Hf.
  unfold mbind, View_bind, get_db. cbv beta iota zeta.
  rewrite !text_step.
  rewrite (number_step (DecimalField_to_python env) _ _
             (fun d l => Qle_bool d (price_per_night l))) by reflexivity.
  destruct (Spec.number (DecimalField_to_python env)
              (Spec.nonempty (query_params request !! "min_price"))) as [lo|];
    [|reflexivity].
  rewrite (number_step (DecimalField_to_python env) _ _
             (fun d l => Qle_bool (price_per_night l) d)) by reflexivity.
  destruct (Spec.number (DecimalField_to_python env)
              (Spec.nonempty (query_params request !! "max_price"))) as [hi|];
    [|reflexivity].
  rewrite (number_step (IntegerField_to_python env) _ _
             (fun n l => (n <=? max_guests l)%Z)) by reflexivity.
  destruct (Spec.number (IntegerField_to_python env)
              (Spec.nonempty (query_params request !! "guests"))) as [g|];
    [discriminate|reflexivity].
Qed.

End ListingQuery.

(** ** Listing search (C3) *)

(** Any caller may read: [GET] passes [IsAuthenticatedOrReadOnly]. *)
Lemma listing_read_allowed (env : Env) (request : Request) :
  Generic.check_permissions env ListingViewSet.permission_classes GET request
  = mret tt.
Proof. reflexivity. Qed.

Lemma listing_GET_list (env : Env) (request : Request) (db : DB) (f : Spec.Filters) :
  Spec.filters Spec.nonempty env (query_params request) = Some f ->
  ListingViewSet.GET_list env request db
  = (Response (ListingList (Spec.list_listings f db)) HTTP_200_OK, db).
Proof.
  intros Hf. unfold ListingViewSet.GET_list, Generic.dispatch, Generic.ListModelMixin_list.
  simpl. view_unfold.
  now rewrite (get_queryset_filters env request db f Hf).
Qed.

(** C3: the listing search returns exactly the active listings that satisfy
    every supplied filter, the filters combining by conjunction, where a
    parameter counts as supplied when it is present and not empty and the
    numeric parameters are numbers the store can read. *)
Theorem listing_search_filters (env : Env) (request : Request) (db : DB)
    (f : Spec.Filters) :
  Spec.filters Spec.nonempty env (query_params request) = Some f ->
  ListingViewSet.GET_list env request db
  = (Response (ListingList (Spec.list_listings f db)) HTTP_200_OK, db)
  /\ (forall l, In l (Spec.list_listings f db)
                <-> In l (Listing_objects db) /\ Spec.satisfies f l = true).
Proof.
  intros Hf. split.
  - now apply listing_GET_list.
  - intros l. unfold Spec.list_listings. apply filter_In.
Qed.

Lemma listing_search_filters_witness :
  ListingViewSet.GET_list Sample.env Sample.scenario_request Sample.db
  = (Response (ListingList (Spec.list_listings Sample.scenario_filters Sample.db)) HTTP_200_OK,
     Sample.db).
Proof.
  apply (listing_search_filters Sample.env Sample.scenario_request Sample.db Sample.scenario_filters).
  vm_compute. reflexivity.
Defined.

(** The scenario of the specification: a listing in Austin at 100 a night
    is found between 50 and 150, and not below 80. *)
Example scenario_included :
  Spec.list_listings Sample.scenario_filters Sample.db = [Sample.loft].
Proof. reflexivity. Qed.

(** C3 as stated fails: with every present parameter taken as a supplied
    filter, an empty [type] demands a listing whose type is the empty text,
    so no listing qualifies, yet the view applies no type filter and returns
    the active listing. *)
Lemma listing_search_empty_type :
  Spec.filters Spec.present Sample.env (query_params Sample.empty_type_request)
  = Some Sample.empty_type_filters
  /\ Spec.list_listings Sample.empty_type_filters Sample.db = []
  /\ ListingViewSet.GET_list Sample.env Sample.empty_type_request Sample.db
     = (Response (ListingList [Sample.loft]) HTTP_200_OK, Sample.db).
Proof. repeat split; vm_compute; reflexivity. Qed.

(** ** Permission checks and object lookup *)

Lemma unique_pk_filter {M : Type} `{Model M} (p : M -> bool) (rows : list M) :
  NoDup (map pk rows) -> NoDup (map pk (List.filter p rows)).
Proof.
  induction rows as [|x rows IH]; simpl; intros Hnd; [constructor|].
  apply NoDup_cons in Hnd as [Hx Hnd].
  destruct (p x); simpl; [|now apply IH].
  constructor; [|now apply IH].
  rewrite list_elem_of_In in *. intros Hin. apply Hx.
  apply in_map_iff in Hin as [y [Heq Hy]]. apply filter_In in Hy as [Hy _].
  rewrite <- Heq. now apply in_map.
Qed.

(** An authenticated caller passes both permission classes, whatever the
    method. *)
Lemma check_permissions_authenticated (env : Env) (p : permission) (m : method)
    (request : Request) (u : nat) :
  user request = User u ->
  Generic.check_permissions env [p] m request = mret tt.
Proof. intros Hu. destruct p; simpl; rewrite Hu; simpl; rewrite ?orb_true_r; reflexivity. Qed.

(** What an anonymous caller is answered when a permission class refuses
    the request: not authenticated, with 401 when the first authentication
    class has a challenge header and 403 otherwise. *)
Lemma dispatch_anonymous_refused (env : Env) (p : permission) (m : method)
    (request : Request) (handler : View HttpResponse) (db : DB) :
  user request = AnonymousUser ->
  has_permission p m request = false ->
  Generic.dispatch env [p] m request handler db
  = (Generic.handle_exception env
       (match authentication_classes env with
        | [] => PermissionDenied
        | _ :: _ => NotAuthenticated
        end), db).
Proof.
  intros Hu Hp. unfold Generic.dispatch. simpl. rewrite Hp.
  unfold Generic.permission_denied, Generic.successful_authenticator.
  rewrite Hu. view_unfold. simpl.
  destruct (authentication_classes env); reflexivity.
Qed.

Lemma refused_status (env : Env) :
  let r := Generic.handle_exception env
             (match authentication_classes env with
              | [] => PermissionDenied
              | _ :: _ => NotAuthenticated
              end) in
  status_code r = HTTP_401_UNAUTHORIZED \/ status_code r = HTTP_403_FORBIDDEN.
Proof.
  simpl. unfold Generic.handle_exception, Generic.get_authenticate_header.
  destruct (authentication_classes env) as [|a ?]; [now right|].
  destruct (authenticate_header a); [now left | now right].
Qed.

Lemma user_ne_other (stored u : nat) : u <> stored -> user_ne stored (User u) = true.
Proof. intros Hne. simpl. apply negb_true_iff, Nat.eqb_neq. congruence. Qed.

Lemma user_ne_same (stored : nat) : user_ne stored (User stored) = false.
Proof. simpl. now rewrite Nat.eqb_refl. Qed.


Section ListingLookup.
Variable env : Env.
Variables (request : Request) (db : DB) (f : Spec.Filters).
Hypothesis Hkeys : NoDup (map listing_id (Listing_objects db)).
Hypothesis Hf : Spec.filters Spec.nonempty env (query_params request) = Some f.

(** A listing that the query set holds is found by its key. *)
Lemma listing_get_object (l : Listing) :
  In l (Listing_objects db) -> Spec.satisfies f l = true ->
  Generic.get_object (ListingViewSet.self env) request (listing_id l) db = (inr l, db).
Proof using Hkeys Hf.
  intros Hin Hsat. unfold Generic.get_object. simpl. view_unfold.
  rewrite (get_queryset_filters env request db f Hf).
  change (listing_id l) with (pk l).
  apply (get_object_or_404_found (M:=Listing) (Spec.list_listings f db) l db).
  - apply (unique_pk_filter (M:=Listing)). exact Hkeys.
  - apply filter_In. now split.
Qed.

(** The key of an inactive listing is not found. *)
Lemma listing_get_object_inactive (l : Listing) :
  In l (Listing_objects db) -> is_active l = false ->
  Generic.get_object (ListingViewSet.self env) request (listing_id l) db
  = (inl Http404, db).
Proof using Hkeys Hf.
  intros Hin Hoff. unfold Generic.get_object. simpl. view_unfold.
  rewrite (get_queryset_filters env request db f Hf).
  apply (get_object_or_404_missing (M:=Listing) (Spec.list_listings f db)).
  intros x Hx Heq. apply filter_In in Hx as [Hx Hsat].
  assert (x = l) as -> by (apply (unique_pk_inj (M:=Listing) (Listing_objects db)); auto).
  unfold Spec.satisfies in Hsat. rewrite Hoff in Hsat. discriminate.
Qed.

End ListingLookup.

(** ** Listing update and delete by another user (C1) *)

(** C1: an authenticated user who is not the owner updates or deletes a
    listing.  The listing is left as it was, but the caller is answered 200
    with the unchanged listing, or 204: the 403 response built by the hook
    is dropped by the generic action. *)
Theorem listing_update_by_other_user (env : Env) (request : Request) (db : DB)
    (f : Spec.Filters) (l : Listing) (u : nat) (vd : gmap string value) :
  NoDup (map listing_id (Listing_objects db)) ->
  Spec.filters Spec.nonempty env (query_params request) = Some f ->
  In l (Listing_objects db) -> Spec.satisfies f l = true ->
  user request = User u -> u <> owner l ->
  run_validation (ListingSerializer env) (Some l) false (data request) = Some vd ->
  ListingViewSet.PUT_update env request (listing_id l) db
  = (Response (ListingData l) HTTP_200_OK, db)
  /\ ListingViewSet.DELETE_destroy env request (listing_id l) db
     = (Response NoContent HTTP_204_NO_CONTENT, db).
Proof.
  intros Hkeys Hf Hin Hsat Hu Hne Hvalid.
  pose proof (listing_get_object env request db f Hkeys Hf l Hin Hsat) as Hget.
  split.
  - unfold ListingViewSet.PUT_update, Generic.dispatch, ListingViewSet.permission_classes.
    rewrite (check_permissions_authenticated env _ _ request u Hu).
    unfold Generic.UpdateModelMixin_update. view_unfold. rewrite Hget.
    unfold Generic.get_valid_serializer. simpl.
    unfold ListingViewSet.serializer_class. rewrite Hvalid.
    unfold ListingViewSet.perform_update. simpl.
    rewrite Hu, (user_ne_other (owner l) u Hne). reflexivity.
  - unfold ListingViewSet.DELETE_destroy, Generic.dispatch, ListingViewSet.permission_classes.
    rewrite (check_permissions_authenticated env _ _ request u Hu).
    unfold Generic.DestroyModelMixin_destroy. view_unfold. rewrite Hget.
    simpl. unfold ListingViewSet.perform_destroy.
    rewrite Hu, (user_ne_other (owner l) u Hne). reflexivity.
Qed.

Lemma listing_update_by_other_user_witness :
  ListingViewSet.PUT_update Sample.env
    (Sample.request (User Sample.stranger) ∅ {[ "title" := VStr "Mine now" ]}) 1 Sample.db
  = (Response (ListingData Sample.loft) HTTP_200_OK, Sample.db)
  /\ ListingViewSet.DELETE_destroy Sample.env
       (Sample.request (User Sample.stranger) ∅ {[ "title" := VStr "Mine now" ]}) 1 Sample.db
     = (Response NoContent HTTP_204_NO_CONTENT, Sample.db).
Proof.
  apply (listing_update_by_other_user Sample.env
           (Sample.request (User Sample.stranger) ∅ {[ "title" := VStr "Mine now" ]})
           Sample.db Sample.no_filters Sample.loft Sample.stranger
           {[ "title" := VStr "Mine now" ]}).
  - apply (bool_decide_unpack _). vm_compute. reflexivity.
  - vm_compute. reflexivity.
  - simpl. left. reflexivity.
  - vm_compute. reflexivity.
  - reflexivity.
  - vm_compute. lia.
  - reflexivity.
Defined.

(** ** Inactive listings (C9) *)

(** C9: for an inactive listing every route addressed by its key answers
    not found to an authenticated caller, its owner included; to an
    anonymous caller the reads answer not found, while update and delete
    are refused as not authenticated before the listing is looked up. *)
Theorem inactive_listing_not_found (env : Env) (request : Request) (db : DB)
    (f : Spec.Filters) (l : Listing) :
  NoDup (map listing_id (Listing_objects db)) ->
  Spec.filters Spec.nonempty env (query_params request) = Some f ->
  In l (Listing_objects db) -> is_active l = false ->
  let not_found := (Response (Detail Http404) HTTP_404_NOT_FOUND, db) in
  let refused :=
    (Generic.handle_exception env
       (match authentication_classes env with
        | [] => PermissionDenied
        | _ :: _ => NotAuthenticated
        end), db) in
  ListingViewSet.GET_retrieve env request (listing_id l) db = not_found
  /\ ListingViewSet.GET_reviews env request (listing_id l) db = not_found
  /\ ListingViewSet.GET_bookings env request (listing_id l) db = not_found
  /\ (forall u, user request = User u ->
        ListingViewSet.PUT_update env request (listing_id l) db = not_found
        /\ ListingViewSet.PATCH_partial_update env request (listing_id l) db = not_found
        /\ ListingViewSet.DELETE_destroy env request (listing_id l) db = not_found)
  /\ (user request = AnonymousUser ->
        ListingViewSet.PUT_update env request (listing_id l) db = refused
        /\ ListingViewSet.PATCH_partial_update env request (listing_id l) db = refused
        /\ ListingViewSet.DELETE_destroy env request (listing_id l) db = refused).
Proof.
  intros Hkeys Hf Hin Hoff not_found refused.
  pose proof (listing_get_object_inactive env request db f Hkeys Hf l Hin Hoff) as Hget.
  split; [|split; [|split; [|split]]].
  - unfold ListingViewSet.GET_retrieve, Generic.dispatch, Generic.RetrieveModelMixin_retrieve.
    simpl. view_unfold. now rewrite Hget.
  - unfold ListingViewSet.GET_reviews, Generic.dispatch, ListingViewSet.reviews.
    simpl. view_unfold. now rewrite Hget.
  - unfold ListingViewSet.GET_bookings, Generic.dispatch, ListingViewSet.bookings.
    simpl. view_unfold. now rewrite Hget.
  - intros u Hu.
    unfold ListingViewSet.PUT_update, ListingViewSet.PATCH_partial_update,
      ListingViewSet.DELETE_destroy, Generic.dispatch, ListingViewSet.permission_classes.
    rewrite !(check_permissions_authenticated env _ _ request u Hu).
    unfold Generic.UpdateModelMixin_update, Generic.DestroyModelMixin_destroy.
    view_unfold. rewrite Hget. auto.
  - intros Hu.
    split; [|split]; (apply dispatch_anonymous_refused; [assumption|]);
      simpl; now rewrite Hu.
Qed.

Lemma inactive_listing_not_found_witness :
  ListingViewSet.GET_retrieve Sample.env (Sample.request (User Sample.host) ∅ ∅) 2 Sample.db
  = (Response (Detail Http404) HTTP_404_NOT_FOUND, Sample.db).
Proof.
  apply (inactive_listing_not_found Sample.env (Sample.request (User Sample.host) ∅ ∅)
           Sample.db Sample.no_filters Sample.cabin).
  - apply (bool_decide_unpack _). vm_compute. reflexivity.
  - vm_compute. reflexivity.
  - simpl. right. left. reflexivity.
  - reflexivity.
Defined.

(** C9 as stated fails for an anonymous caller: deleting an inactive listing
    is refused by the permission class (here with 403, not authenticated),
    not answered with not found. *)
Lemma inactive_listing_anonymous_delete :
  ListingViewSet.DELETE_destroy Sample.env (Sample.request AnonymousUser ∅ ∅) 2 Sample.db
  = (Response (Detail NotAuthenticated) HTTP_403_FORBIDDEN, Sample.db)
  /\ is_active Sample.cabin = false
  /\ listing_id Sample.cabin = 2%nat
  /\ In Sample.cabin (Listing_objects Sample.db).
Proof. repeat split; vm_compute; auto. Qed.

(** ** Reviews: update and delete (C7) *)

Lemma review_queryset (env : Env) (request : Request) (db : DB) :
  truthy (query_params request !! "listing") = false ->
  ReviewViewSet.get_queryset env request db = (inr (Review_objects db), db).
Proof.
  intros Hno. unfold ReviewViewSet.get_queryset. view_unfold.
  now rewrite Hno.
Qed.

Lemma review_get_object (env : Env) (request : Request) (db : DB) (r : Review) :
  NoDup (map review_id (Review_objects db)) ->
  truthy (query_params request !! "listing") = false ->
  In r (Review_objects db) ->
  Generic.get_object (ReviewViewSet.self env) request (review_id r) db = (inr r, db).
Proof.
  intros Hkeys Hno Hin. unfold Generic.get_object. simpl. view_unfold.
  rewrite (review_queryset env request db Hno).
  change (review_id r) with (pk r).
  now apply (get_object_or_404_found (M:=Review) (Review_objects db) r db).
Qed.

(** C7: an authenticated user who is not the reviewer updates or deletes a
    review.  The review is left as it was, but the caller is answered 200
    with the unchanged review, or 204: the 403 response built by the hook is
    dropped by the generic action.  For the reviewer the update is saved and
    the delete removes the review. *)
Theorem review_update_by_other_user (env : Env) (request : Request) (db : DB)
    (r : Review) (u : nat) (vd : gmap string value) :
  NoDup (map review_id (Review_objects db)) ->
  truthy (query_params request !! "listing") = false ->
  In r (Review_objects db) ->
  user request = User u ->
  run_validation (ReviewSerializer env) (Some r) false (data request) = Some vd ->
  (u <> reviewer r ->
     ReviewViewSet.PUT_update env request (review_id r) db
     = (Response (ReviewData r) HTTP_200_OK, db)
     /\ ReviewViewSet.DELETE_destroy env request (review_id r) db
        = (Response NoContent HTTP_204_NO_CONTENT, db))
  /\ (u = reviewer r ->
        let r' := update (ReviewSerializer env) r (∅ ∪ vd) in
        ReviewViewSet.PUT_update env request (review_id r) db
        = (Response (ReviewData r') HTTP_200_OK, snd (ORM.save r' db))
        /\ ReviewViewSet.DELETE_destroy env request (review_id r) db
           = (Response NoContent HTTP_204_NO_CONTENT, snd (ORM.delete r db))).
Proof.
  intros Hkeys Hno Hin Hu Hvalid.
  pose proof (review_get_object env request db r Hkeys Hno Hin) as Hget.
  split; intros Hwho.
  - split.
    + unfold ReviewViewSet.PUT_update, Generic.dispatch, ReviewViewSet.permission_classes.
      rewrite (check_permissions_authenticated env _ _ request u Hu).
      unfold Generic.UpdateModelMixin_update. view_unfold. rewrite Hget.
      unfold Generic.get_valid_serializer. simpl.
      unfold ReviewViewSet.serializer_class. rewrite Hvalid.
      unfold ReviewViewSet.perform_update. simpl.
      rewrite Hu, (user_ne_other (reviewer r) u Hwho). reflexivity.
    + unfold ReviewViewSet.DELETE_destroy, Generic.dispatch, ReviewViewSet.permission_classes.
      rewrite (check_permissions_authenticated env _ _ request u Hu).
      unfold Generic.DestroyModelMixin_destroy. view_unfold. rewrite Hget.
      simpl. unfold ReviewViewSet.perform_destroy.
      rewrite Hu, (user_ne_other (reviewer r) u Hwho). reflexivity.
  - subst u. split.
    + unfold ReviewViewSet.PUT_update, Generic.dispatch, ReviewViewSet.permission_classes.
      rewrite (check_permissions_authenticated env _ _ request _ Hu).
      unfold Generic.UpdateModelMixin_update. view_unfold. rewrite Hget.
      unfold Generic.get_valid_serializer. simpl.
      unfold ReviewViewSet.serializer_class. rewrite Hvalid.
      unfold ReviewViewSet.perform_update. simpl.
      rewrite Hu, user_ne_same. unfold Generic.save. simpl. view_unfold.
      unfold ReviewViewSet.serializer_class, ORM.save.
      destruct (existsb _ _); reflexivity.
    + unfold ReviewViewSet.DELETE_destroy, Generic.dispatch, ReviewViewSet.permission_classes.
      rewrite (check_permissions_authenticated env _ _ request _ Hu).
      unfold Generic.DestroyModelMixin_destroy. view_unfold. rewrite Hget.
      simpl. unfold ReviewViewSet.perform_destroy.
      rewrite Hu, user_ne_same. reflexivity.
Qed.

Lemma review_update_by_other_user_witness :
  ReviewViewSet.PUT_update Sample.env
    (Sample.request (User Sample.stranger) ∅ {[ "comment" := VStr "Awful" ]}) 1 Sample.db
  = (Response (ReviewData Sample.praise) HTTP_200_OK, Sample.db)
  /\ ReviewViewSet.DELETE_destroy Sample.env
       (Sample.request (User Sample.stranger) ∅ {[ "comment" := VStr "Awful" ]}) 1 Sample.db
     = (Response NoContent HTTP_204_NO_CONTENT, Sample.db).
Proof.
  apply (review_update_by_other_user Sample.env
           (Sample.request (User Sample.stranger) ∅ {[ "comment" := VStr "Awful" ]})
           Sample.db Sample.praise Sample.stranger {[ "comment" := VStr "Awful" ]}).
  - apply (bool_decide_unpack _). vm_compute. reflexivity.
  - vm_compute. reflexivity.
  - simpl. left. reflexivity.
  - reflexivity.
  - reflexivity.
  - vm_compute. lia.
Defined.

(** The scenario of the specification, second half: the reviewer's own
    update is saved. *)
Example review_update_by_reviewer :
  ReviewViewSet.PUT_update Sample.env
    (Sample.request (User Sample.visitor) ∅ {[ "comment" := VStr "Even better" ]}) 1 Sample.db
  = (Response (ReviewData (Sample.set_comment Sample.praise "Even better")) HTTP_200_OK,
     {| Listing_objects := Listing_objects Sample.db;
        Booking_objects := Booking_objects Sample.db;
        Review_objects := [Sample.set_comment Sample.praise "Even better"] |}).
Proof. vm_compute. reflexivity. Qed.

(** ** The booking query set (C4) *)

Lemma booking_queryset_user (request : Request) (db : DB) (u : nat) :
  user request = User u ->
  exists qs,
    BookingViewSet.get_queryset false request db = (inr qs, db)
    /\ NoDup qs
    /\ forall b, In b qs <->
         In b (Booking_objects db)
         /\ exists l, In l (Listing_objects db)
                      /\ listing_id l = booking_listing b
                      /\ (guest b = u \/ owner l = u).
Proof.
  intros Hu. unfold BookingViewSet.get_queryset. rewrite Hu. simpl. view_unfold.
  eexists. split; [reflexivity|]. split; [apply NoDup_remove_dups|].
  intros b. rewrite <- list_elem_of_In, elem_of_remove_dups, list_elem_of_In.
  rewrite in_map_iff. split.
  - intros [[b' l] [Hfst Hin]]. simpl in Hfst. subst b'.
    apply filter_In in Hin as [Hin Hcond]. simpl in Hcond.
    unfold BookingViewSet.join_listing in Hin.
    apply in_flat_map in Hin as [b' [Hb' Hin]].
    apply in_map_iff in Hin as [l' [Heq Hl']]. injection Heq as -> ->.
    apply filter_In in Hl' as [Hl' Hid]. apply Nat.eqb_eq in Hid.
    split; [assumption|]. exists l. repeat split; try assumption.
    apply orb_true_iff in Hcond as [Hc|Hc];
      unfold user_eq in Hc; apply negb_true_iff in Hc; simpl in Hc;
      apply negb_false_iff, Nat.eqb_eq in Hc; auto.
  - intros [Hb [l [Hl [Hid Hwho]]]]. exists (b, l). split; [reflexivity|].
    apply filter_In. split.
    + unfold BookingViewSet.join_listing. apply in_flat_map. exists b.
      split; [assumption|]. apply in_map. apply filter_In.
      split; [assumption|]. now apply Nat.eqb_eq.
    + simpl. apply orb_true_iff. unfold user_eq. simpl. rewrite !negb_involutive.
      destruct Hwho as [<-|<-]; [left|right]; apply Nat.eqb_refl.
Qed.

Lemma booking_queryset_anonymous (swagger_fake_view : bool)
    (request : Request) (db : DB) :
  user request = AnonymousUser ->
  BookingViewSet.get_queryset swagger_fake_view request db = (inr [], db).
Proof.
  intros Hu. unfold BookingViewSet.get_queryset. rewrite Hu.
  destruct swagger_fake_view; reflexivity.
Qed.

(** C4: for an authenticated user the booking list is exactly the bookings
    made by the user together with the bookings on listings the user owns,
    none of them twice.  For an anonymous user the query set is empty, and
    the list route itself refuses the request as not authenticated before
    the query set is read. *)
Theorem booking_list_guest_or_owner (env : Env) (request : Request) (db : DB) :
  (forall b, In b (Booking_objects db) ->
     exists l, In l (Listing_objects db) /\ listing_id l = booking_listing b) ->
  (forall u, user request = User u ->
     exists qs,
       BookingViewSet.GET_list env request db = (Response (BookingList qs) HTTP_200_OK, db)
       /\ NoDup qs
       /\ forall b, In b qs <->
            In b (Booking_objects db)
            /\ (guest b = u
                \/ exists l, In l (Listing_objects db)
                             /\ listing_id l = booking_listing b /\ owner l = u))
  /\ (user request = AnonymousUser ->
        (forall swagger_fake_view,
           BookingViewSet.get_queryset swagger_fake_view request db = (inr [], db))
        /\ BookingViewSet.GET_list env request db
           = (Generic.handle_exception env
                (match authentication_classes env with
                 | [] => PermissionDenied
                 | _ :: _ => NotAuthenticated
                 end), db)).
Proof.
  intros Hfk. split.
  - intros u Hu.
    destruct (booking_queryset_user request db u Hu) as [qs [Hqs [Hnd Hmem]]].
    exists qs. split; [|split; [exact Hnd|]].
    + unfold BookingViewSet.GET_list, Generic.dispatch, BookingViewSet.permission_classes.
      rewrite (check_permissions_authenticated env _ _ request u Hu).
      unfold Generic.ListModelMixin_list, BookingViewSet.self. cbn [get_queryset].
      view_unfold. now rewrite Hqs.
    + intros b. rewrite Hmem. split.
      * intros [Hb [l [Hl [Hid [Hg|Ho]]]]]; (split; [assumption|]); [now left|].
        right. exists l. auto.
      * intros [Hb [Hg|[l [Hl [Hid Ho]]]]]; (split; [assumption|]).
        -- destruct (Hfk b Hb) as [l [Hl Hid]]. exists l. auto.
        -- exists l. auto.
  - intros Hu. split.
    + intros sw. now apply booking_queryset_anonymous.
    + apply dispatch_anonymous_refused; [assumption|]. simpl. now rewrite Hu.
Qed.

Lemma booking_list_guest_or_owner_witness :
  exists qs,
    BookingViewSet.GET_list Sample.env (Sample.request (User Sample.host) ∅ ∅) Sample.db
    = (Response (BookingList qs) HTTP_200_OK, Sample.db)
    /\ NoDup qs
    /\ forall b, In b qs <->
         In b (Booking_objects Sample.db)
         /\ (guest b = Sample.host
             \/ exists l, In l (Listing_objects Sample.db)
                          /\ listing_id l = booking_listing b /\ owner l = Sample.host).
Proof.
  apply (booking_list_guest_or_owner Sample.env (Sample.request (User Sample.host) ∅ ∅)
           Sample.db).
  - intros b [<-|[]]. exists Sample.loft. split; [left|]; reflexivity.
  - reflexivity.
Defined.

(** C4 as stated fails for an anonymous caller: the list route answers with
    an error (here 403, not authenticated), not with an empty result. *)
Lemma booking_list_anonymous :
  BookingViewSet.GET_list Sample.env (Sample.request AnonymousUser ∅ ∅) Sample.db
  = (Response (Detail NotAuthenticated) HTTP_403_FORBIDDEN, Sample.db)
  /\ BookingViewSet.GET_list Sample.env (Sample.request AnonymousUser ∅ ∅) Sample.db
     <> (Response (BookingList []) HTTP_200_OK, Sample.db).
Proof. split; [vm_compute; reflexivity | discriminate]. Qed.

(** ** Booking status updates (C5, C6, C10) *)

Section BookingLookup.
Variable env : Env.
Variables (request : Request) (db : DB) (u : nat).
Hypothesis Hkeys : NoDup (map booking_id (Booking_objects db)).
Hypothesis Hu : user request = User u.

(** A booking the user may see is found by its key. *)
Lemma booking_get_object (b : Booking) (l : Listing) :
  In b (Booking_objects db) ->
  In l (Listing_objects db) -> listing_id l = booking_listing b ->
  guest b = u \/ owner l = u ->
  Generic.get_object (BookingViewSet.self env) request (booking_id b) db = (inr b, db).
Proof using Hkeys Hu.
  intros Hb Hl Hid Hwho.
  destruct (booking_queryset_user request db u Hu) as [qs [Hqs [Hnd Hmem]]].
  unfold Generic.get_object, BookingViewSet.self. cbn [get_queryset]. view_unfold.
  rewrite Hqs. change (booking_id b) with (pk b).
  apply (get_object_or_404_found (M:=Booking) qs b db).
  - apply (unique_pk_sub (M:=Booking) (Booking_objects db)); auto.
    intros x Hx. now apply Hmem in Hx.
  - apply Hmem. split; [assumption|]. exists l. auto.
Qed.

(** A booking of somebody else on somebody else's listing is not found. *)
Lemma booking_get_object_hidden (b : Booking) :
  In b (Booking_objects db) ->
  guest b <> u ->
  (forall l, In l (Listing_objects db) -> listing_id l = booking_listing b -> owner l <> u) ->
  Generic.get_object (BookingViewSet.self env) request (booking_id b) db
  = (inl Http404, db).
Proof using Hkeys Hu.
  intros Hb Hguest Howner.
  destruct (booking_queryset_user request db u Hu) as [qs [Hqs [Hnd Hmem]]].
  unfold Generic.get_object, BookingViewSet.self. cbn [get_queryset]. view_unfold.
  rewrite Hqs.
  apply (get_object_or_404_missing (M:=Booking) qs).
  intros x Hx Heq. apply Hmem in Hx as [Hx [l [Hl [Hid Hwho]]]].
  assert (x = b) as -> by (apply (unique_pk_inj (M:=Booking) (Booking_objects db)); auto).
  destruct Hwho as [Hg|Ho]; [now apply Hguest | now apply (Howner l)].
Qed.

End BookingLookup.

(** Saving a changed row of an existing key replaces that row. *)
Lemma save_existing_booking (db : DB) (b b' : Booking) :
  In b (Booking_objects db) -> booking_id b' = booking_id b ->
  ORM.save b' db
  = (inr tt,
     {| Listing_objects := Listing_objects db;
        Booking_objects :=
          map (fun y => if (booking_id y =? booking_id b)%nat then b' else y)
            (Booking_objects db);
        Review_objects := Review_objects db |}).
Proof.
  intros Hin Hid. unfold ORM.save. simpl.
  assert (existsb (ORM.pk_is (booking_id b')) (Booking_objects db) = true) as ->.
  { apply existsb_exists. exists b. split; [assumption|].
    unfold ORM.pk_is. simpl. rewrite Hid. apply Nat.eqb_refl. }
  unfold ORM.pk_is. simpl. now rewrite Hid.
Qed.

(** What the status route does for a caller who may see the booking: the
    ownership test, then the test of the status value, then the save. *)
Lemma update_status_seen (env : Env) (request : Request) (db : DB) (u : nat)
    (b : Booking) (l : Listing) :
  NoDup (map booking_id (Booking_objects db)) ->
  NoDup (map listing_id (Listing_objects db)) ->
  user request = User u ->
  In b (Booking_objects db) ->
  In l (Listing_objects db) -> listing_id l = booking_listing b ->
  guest b = u \/ owner l = u ->
  BookingViewSet.PATCH_update_status env request (booking_id b) db
  = if user_ne (owner l) (User u)
    then (Response (Error "Only listing owner can update booking status")
            HTTP_403_FORBIDDEN, db)
    else if BookingViewSet.status_in (data request !! "status") BookingViewSet.valid_statuses
    then
      let b' := BookingViewSet.set_status b (BookingViewSet.as_str (data request !! "status")) in
      (Response (BookingData b') HTTP_200_OK,
       {| Listing_objects := Listing_objects db;
          Booking_objects :=
            map (fun y => if (booking_id y =? booking_id b)%nat then b' else y)
              (Booking_objects db);
          Review_objects := Review_objects db |})
    else (Response (Error "Invalid status") HTTP_400_BAD_REQUEST, db).
Proof.
  intros Hbk Hlk Hu Hb Hl Hid Hwho.
  unfold BookingViewSet.PATCH_update_status, Generic.dispatch,
    BookingViewSet.permission_classes.
  rewrite (check_permissions_authenticated env _ _ request u Hu).
  unfold BookingViewSet.update_status. view_unfold.
  rewrite (booking_get_object env request db u Hbk Hu b l Hb Hl Hid Hwho).
  rewrite <- Hid. change (listing_id l) with (pk l).
  rewrite (get_found (M:=Listing) (H:=Listing_model) (Listing_objects db) l db Hlk Hl).
  rewrite Hu. destruct (user_ne (owner l) (User u)); [reflexivity|].
  destruct (BookingViewSet.status_in _ _); simpl; [|reflexivity].
  rewrite (save_existing_booking db b
             (BookingViewSet.set_status b (BookingViewSet.as_str (data request !! "status")))
             Hb eq_refl).
  reflexivity.
Qed.

Lemma status_in_valid (v : option value) :
  BookingViewSet.status_in v BookingViewSet.valid_statuses = true <->
  exists s, v = Some (VStr s) /\ In s BookingViewSet.valid_statuses.
Proof.
  unfold BookingViewSet.status_in. split.
  - destruct v as [[| | |s| |]|]; try discriminate.
    intros H. apply existsb_exists in H as [s' [Hin Heq]].
    apply String.eqb_eq in Heq. subst s'. eauto.
  - intros [s [-> Hin]]. apply existsb_exists. exists s.
    split; [assumption | apply String.eqb_refl].
Qed.

(** C5: when the owner of the listing sends a status value outside
    pending, confirmed, cancelled and completed (or none at all), the
    request is answered 400 "Invalid status" and nothing is stored: the
    booking keeps its status. *)
Theorem update_status_invalid_value (env : Env) (request : Request) (db : DB)
    (b : Booking) (l : Listing) :
  NoDup (map booking_id (Booking_objects db)) ->
  NoDup (map listing_id (Listing_objects db)) ->
  In b (Booking_objects db) ->
  In l (Listing_objects db) -> listing_id l = booking_listing b ->
  user request = User (owner l) ->
  (forall s, In s ["pending"; "confirmed"; "cancelled"; "completed"] ->
             data request !! "status" <> Some (VStr s)) ->
  BookingViewSet.PATCH_update_status env request (booking_id b) db
  = (Response (Error "Invalid status") HTTP_400_BAD_REQUEST, db).
Proof.
  intros Hbk Hlk Hb Hl Hid Hu Hbad.
  rewrite (update_status_seen env request db (owner l) b l) by auto.
  rewrite user_ne_same.
  destruct (BookingViewSet.status_in _ _) eqn:Hin; [|reflexivity].
  apply status_in_valid in Hin as [s [Hs Hin]]. now destruct (Hbad s Hin).
Qed.

Lemma update_status_invalid_value_witness :
  BookingViewSet.PATCH_update_status Sample.env
    (Sample.request (User Sample.host) ∅ {[ "status" := VStr "paid" ]}) 1 Sample.db
  = (Response (Error "Invalid status") HTTP_400_BAD_REQUEST, Sample.db).
Proof.
  apply (update_status_invalid_value Sample.env
           (Sample.request (User Sample.host) ∅ {[ "status" := VStr "paid" ]})
           Sample.db Sample.stay Sample.loft).
  - apply (bool_decide_unpack _). vm_compute. reflexivity.
  - apply (bool_decide_unpack _). vm_compute. reflexivity.
  - simpl. left. reflexivity.
  - simpl. left. reflexivity.
  - reflexivity.
  - reflexivity.
  - intros s Hin. vm_compute. simpl in Hin.
    intros Heq. injection Heq as <-.
    repeat (destruct Hin as [Hin|Hin]; [discriminate|]). exact Hin.
Defined.

(** The status route for an authenticated caller, by the rows the two
    lookups find. *)
Lemma update_status_user (env : Env) (request : Request) (key : nat) (db : DB)
    (u : nat) (qs : list Booking) :
  user request = User u ->
  BookingViewSet.get_queryset false request db = (inr qs, db) ->
  BookingViewSet.PATCH_update_status env request key db
  = match List.filter (ORM.pk_is key) qs with
    | [] => (Response (Detail Http404) HTTP_404_NOT_FOUND, db)
    | [x] =>
        match List.filter (ORM.pk_is (booking_listing x)) (Listing_objects db) with
        | [] => (Response (Detail DoesNotExist) HTTP_500_INTERNAL_SERVER_ERROR, db)
        | [l] =>
            if user_ne (owner l) (User u)
            then (Response (Error "Only listing owner can update booking status")
                    HTTP_403_FORBIDDEN, db)
            else if BookingViewSet.status_in (data request !! "status")
                      BookingViewSet.valid_statuses
            then
              let b' := BookingViewSet.set_status x
                          (BookingViewSet.as_str (data request !! "status")) in
              (Response (BookingData b') HTTP_200_OK, snd (ORM.save b' db))
            else (Response (Error "Invalid status") HTTP_400_BAD_REQUEST, db)
        | _ => (Response (Detail MultipleObjectsReturned) HTTP_500_INTERNAL_SERVER_ERROR, db)
        end
    | _ => (Response (Detail MultipleObjectsReturned) HTTP_500_INTERNAL_SERVER_ERROR, db)
    end.
Proof.
  intros Hu Hqs.
  unfold BookingViewSet.PATCH_update_status, Generic.dispatch,
    BookingViewSet.permission_classes.
  rewrite (check_permissions_authenticated env _ _ request u Hu).
  unfold BookingViewSet.update_status, Generic.get_object, BookingViewSet.self.
  cbn [get_queryset]. view_unfold. rewrite Hqs.
  unfold ORM.get_object_or_404, ORM.get. view_unfold.
  destruct (List.filter (ORM.pk_is key) qs) as [|x [|y rest]]; try reflexivity.
  destruct (List.filter (ORM.pk_is (booking_listing x)) (Listing_objects db))
    as [|l [|l' rest]]; try reflexivity.
  rewrite Hu. destruct (user_ne (owner l) (User u)); [reflexivity|].
  destruct (BookingViewSet.status_in _ _); simpl; [|reflexivity].
  unfold ORM.save. destruct (existsb _ _); reflexivity.
Qed.

Lemma filter_singleton {A} (p : A -> bool) (l : list A) (x : A) :
  List.filter p l = [x] -> In x l /\ p x = true.
Proof. intros H. apply filter_In. rewrite H. now left. Qed.

(** C6: the status route by caller.  The booking's guest, when not the
    owner, is answered 403; any other authenticated user who is not the
    owner is answered not found, because the booking is outside the query
    set; an anonymous caller is refused as not authenticated; in all three
    cases nothing is stored.  The owner with one of the four status values
    has the status saved and gets the updated booking back. *)
Theorem update_status_by_caller (env : Env) (request : Request) (db : DB)
    (b : Booking) (l : Listing) :
  NoDup (map booking_id (Booking_objects db)) ->
  NoDup (map listing_id (Listing_objects db)) ->
  In b (Booking_objects db) ->
  In l (Listing_objects db) -> listing_id l = booking_listing b ->
  (user request = User (guest b) -> guest b <> owner l ->
     BookingViewSet.PATCH_update_status env request (booking_id b) db
     = (Response (Error "Only listing owner can update booking status")
          HTTP_403_FORBIDDEN, db))
  /\ (forall u, user request = User u -> u <> guest b -> u <> owner l ->
        BookingViewSet.PATCH_update_status env request (booking_id b) db
        = (Response (Detail Http404) HTTP_404_NOT_FOUND, db))
  /\ (user request = AnonymousUser ->
        BookingViewSet.PATCH_update_status env request (booking_id b) db
        = (Generic.handle_exception env
             (match authentication_classes env with
              | [] => PermissionDenied
              | _ :: _ => NotAuthenticated
              end), db))
  /\ (forall s, user request = User (owner l) ->
        data request !! "status" = Some (VStr s) ->
        In s ["pending"; "confirmed"; "cancelled"; "completed"] ->
        BookingViewSet.PATCH_update_status env request (booking_id b) db
        = (Response (BookingData (BookingViewSet.set_status b s)) HTTP_200_OK,
           {| Listing_objects := Listing_objects db;
              Booking_objects :=
                map (fun y => if (booking_id y =? booking_id b)%nat
                              then BookingViewSet.set_status b s else y)
                  (Booking_objects db);
              Review_objects := Review_objects db |})).
Proof.
  intros Hbk Hlk Hb Hl Hid. repeat split.
  - intros Hu Hne.
    rewrite (update_status_seen env request db (guest b) b l) by auto.
    now rewrite (user_ne_other (owner l) (guest b) Hne).
  - intros u Hu Hng Hno.
    unfold BookingViewSet.PATCH_update_status, Generic.dispatch,
      BookingViewSet.permission_classes.
    rewrite (check_permissions_authenticated env _ _ request u Hu).
    unfold BookingViewSet.update_status. view_unfold.
    rewrite (booking_get_object_hidden env request db u Hbk Hu b Hb); auto.
    intros l' Hl' Hid' Heq.
    assert (l' = l) as ->.
    { apply (unique_pk_inj (M:=Listing) (Listing_objects db)); auto.
      simpl. congruence. }
    auto.
  - intros Hu. apply dispatch_anonymous_refused; [assumption|]. simpl. now rewrite Hu.
  - intros s Hu Hs Hin.
    rewrite (update_status_seen env request db (owner l) b l) by auto.
    rewrite user_ne_same.
    assert (BookingViewSet.status_in (data request !! "status")
              BookingViewSet.valid_statuses = true) as ->.
    { apply status_in_valid. eauto. }
    rewrite Hs. reflexivity.
Qed.

Lemma update_status_by_caller_witness :
  BookingViewSet.PATCH_update_status Sample.env
    (Sample.request (User Sample.host) ∅ {[ "status" := VStr "confirmed" ]}) 1 Sample.db
  = (Response (BookingData (BookingViewSet.set_status Sample.stay "confirmed")) HTTP_200_OK,
     {| Listing_objects := Listing_objects Sample.db;
        Booking_objects := [BookingViewSet.set_status Sample.stay "confirmed"];
        Review_objects := Review_objects Sample.db |}).
Proof.
  apply (update_status_by_caller Sample.env
           (Sample.request (User Sample.host) ∅ {[ "status" := VStr "confirmed" ]})
           Sample.db Sample.stay Sample.loft).
  - apply (bool_decide_unpack _). vm_compute. reflexivity.
  - apply (bool_decide_unpack _). vm_compute. reflexivity.
  - simpl. left. reflexivity.
  - simpl. left. reflexivity.
  - reflexivity.
  - reflexivity.
  - vm_compute. reflexivity.
  - simpl. right. left. reflexivity.
Defined.

(** C6 as stated fails for a user who is neither the guest nor the owner:
    the answer is not found, not permission denied. *)
Lemma update_status_stranger_not_found :
  BookingViewSet.PATCH_update_status Sample.env
    (Sample.request (User Sample.stranger) ∅ {[ "status" := VStr "confirmed" ]}) 1 Sample.db
  = (Response (Detail Http404) HTTP_404_NOT_FOUND, Sample.db)
  /\ Sample.stranger <> owner Sample.loft
  /\ booking_listing Sample.stay = listing_id Sample.loft.
Proof.
  split; [vm_compute; reflexivity|]. split; [vm_compute; lia | reflexivity].
Qed.

Lemma refused_not_400 (env : Env) :
  status_code (Generic.handle_exception env
                 (match authentication_classes env with
                  | [] => PermissionDenied
                  | _ :: _ => NotAuthenticated
                  end)) <> HTTP_400_BAD_REQUEST.
Proof. destruct (refused_status env) as [H|H]; simpl in H; rewrite H; discriminate. Qed.

(** C10: in the status route the ownership test comes before the test of
    the status value.  A 400 answer is only ever given to the owner of the
    booking's listing; for any other caller the answer does not depend on
    the request body and nothing is stored.  (That answer is 403 for the
    booking's guest, not found for other users, and not authenticated for
    an anonymous caller.) *)
Theorem update_status_owner_checked_first (env : Env) (request : Request)
    (key : nat) (db : DB) :
  (status_code (fst (BookingViewSet.PATCH_update_status env request key db))
   = HTTP_400_BAD_REQUEST ->
   exists b l,
     In b (Booking_objects db) /\ booking_id b = key
     /\ In l (Listing_objects db) /\ listing_id l = booking_listing b
     /\ user request = User (owner l))
  /\ ((forall b l,
         In b (Booking_objects db) -> booking_id b = key ->
         In l (Listing_objects db) -> listing_id l = booking_listing b ->
         user request <> User (owner l)) ->
      forall body,
        BookingViewSet.PATCH_update_status env
          {| user := user request; query_params := query_params request; data := body |}
          key db
        = BookingViewSet.PATCH_update_status env request key db
        /\ snd (BookingViewSet.PATCH_update_status env request key db) = db).
Proof.
  destruct (user request) as [|u] eqn:Hu.
  - (* anonymous: refused before anything else *)
    assert (BookingViewSet.PATCH_update_status env request key db
            = (Generic.handle_exception env
                 (match authentication_classes env with
                  | [] => PermissionDenied
                  | _ :: _ => NotAuthenticated
                  end), db)) as Hrefused.
    { apply dispatch_anonymous_refused; [assumption|]. simpl. now rewrite Hu. }
    rewrite Hrefused. split.
    + intros H400. exfalso. revert H400. apply refused_not_400.
    + intros _ body. split; [|reflexivity].
      now apply dispatch_anonymous_refused.
  - destruct (booking_queryset_user request db u Hu) as [qs [Hqs [Hnd Hmem]]].
    rewrite (update_status_user env request key db u qs Hu Hqs).
    split.
    + destruct (List.filter (ORM.pk_is key) qs) as [|x [|y rest]] eqn:Hx;
        try (simpl; discriminate).
      apply filter_singleton in Hx as [Hx Hkey].
      apply Hmem in Hx as [Hx _]. apply Nat.eqb_eq in Hkey.
      destruct (List.filter (ORM.pk_is (booking_listing x)) (Listing_objects db))
        as [|l [|l' rest]] eqn:Hl; try (simpl; discriminate).
      apply filter_singleton in Hl as [Hl Hid]. apply Nat.eqb_eq in Hid.
      destruct (user_ne (owner l) (User u)) eqn:Hne; [simpl; discriminate|].
      intros _. exists x, l. repeat split; auto.
      simpl in Hne. apply negb_false_iff, Nat.eqb_eq in Hne. now subst u.
    + intros Hnon body.
      rewrite (update_status_user env
                 {| user := User u; query_params := query_params request; data := body |}
                 key db u qs eq_refl)
        by (rewrite <- Hqs; unfold BookingViewSet.get_queryset; simpl; now rewrite Hu).
      destruct (List.filter (ORM.pk_is key) qs) as [|x [|y rest]] eqn:Hx;
        try (split; reflexivity).
      apply filter_singleton in Hx as [Hx Hkey].
      apply Hmem in Hx as [Hx _]. apply Nat.eqb_eq in Hkey.
      destruct (List.filter (ORM.pk_is (booking_listing x)) (Listing_objects db))
        as [|l [|l' rest]] eqn:Hl; try (split; reflexivity).
      apply filter_singleton in Hl as [Hl Hid]. apply Nat.eqb_eq in Hid.
      destruct (user_ne (owner l) (User u)) eqn:Hne; [split; reflexivity|].
      exfalso. apply (Hnon x l); auto.
      simpl in Hne. apply negb_false_iff, Nat.eqb_eq in Hne. now subst u.
Qed.

Lemma update_status_owner_checked_first_witness :
  exists b l,
    In b (Booking_objects Sample.db) /\ booking_id b = 1%nat
    /\ In l (Listing_objects Sample.db) /\ listing_id l = booking_listing b
    /\ User Sample.host = User (owner l).
Proof.
  apply (update_status_owner_checked_first Sample.env
           (Sample.request (User Sample.host) ∅ {[ "status" := VStr "paid" ]}) 1 Sample.db).
  vm_compute. reflexivity.
Defined.

(** C10 as stated fails: a user who is neither guest nor owner sends an
    invalid status and is answered not found, not permission denied. *)
Lemma update_status_stranger_invalid_value :
  BookingViewSet.PATCH_update_status Sample.env
    (Sample.request (User Sample.stranger) ∅ {[ "status" := VStr "paid" ]}) 1 Sample.db
  = (Response (Detail Http404) HTTP_404_NOT_FOUND, Sample.db)
  /\ Sample.stranger <> owner Sample.loft.
Proof. split; [vm_compute; reflexivity | vm_compute; lia]. Qed.

(** ** Creating a booking (C8) *)

Lemma next_pk_fresh {M : Type} `{Model M} (db : DB) :
  existsb (ORM.pk_is (ORM.next_pk (M:=M) db)) (objects db) = false.
Proof.
  destruct (existsb _ _) eqn:Hex; [|reflexivity]. exfalso.
  apply existsb_exists in Hex as [x [Hin Hpk]].
  unfold ORM.pk_is, ORM.next_pk in Hpk. apply Nat.eqb_eq in Hpk.
  assert (pk x <= list_max (map pk (objects db)))%nat as Hle.
  { pose proof (proj1 (list_max_le (map pk (objects db)) _) (Nat.le_refl _)) as Hall.
    rewrite List.Forall_forall in Hall. apply Hall. now apply in_map. }
  lia.
Qed.

(** The guest of the row built from the merged data is the one given by
    the keyword argument, whatever the validated data say. *)
Lemma Booking_init_guest (key : nat) (vd : gmap string value) (u : Principal)
    (b : Booking) :
  Booking_init key ({[ "guest" := VUser u ]} ∪ vd) = Some b -> u = User (guest b).
Proof.
  unfold Booking_init.
  rewrite (lookup_union_Some_l _ vd "guest" (VUser u)) by apply lookup_singleton_eq.
  destruct (_ !! "listing") as [[| | | | |lid]|]; try discriminate.
  destruct u as [|g]; try discriminate.
  destruct (_ !! "check_in") as [[| |d1| | |]|]; try discriminate.
  destruct (_ !! "check_out") as [[| |d2| | |]|]; try discriminate.
  destruct (_ !! "num_guests") as [[| |n| | |]|]; try discriminate.
  intros Heq. injection Heq as <-. reflexivity.
Qed.

(** C8: creating a booking stores a booking whose guest is the calling
    user, whatever guest the payload names.  The payload is one the
    serializer accepts, with a listing, stay dates and a guest count. *)
Theorem booking_create_guest_is_caller (env : Env) (request : Request) (db : DB)
    (u : nat) (vd : gmap string value) (lid : nat) (d1 d2 n : Z) :
  user request = User u ->
  run_validation (BookingSerializer env) None false (data request) = Some vd ->
  vd !! "listing" = Some (VRef lid) ->
  vd !! "check_in" = Some (VInt d1) ->
  vd !! "check_out" = Some (VInt d2) ->
  vd !! "num_guests" = Some (VInt n) ->
  exists b,
    BookingViewSet.POST_create env request db
    = (Response (BookingData b) HTTP_201_CREATED,
       {| Listing_objects := Listing_objects db;
          Booking_objects := Booking_objects db ++ [b];
          Review_objects := Review_objects db |})
    /\ guest b = u
    /\ booking_listing b = lid.
Proof.
  intros Hu Hvalid Hl H1 H2 Hn.
  assert (forall k, k <> "guest" ->
            ({[ "guest" := VUser (User u) ]} ∪ vd) !! k = vd !! k) as Hother.
  { intros k Hk. apply lookup_union_r. now apply lookup_singleton_ne. }
  assert (exists b, Booking_init (ORM.next_pk (M:=Booking) db)
                      ({[ "guest" := VUser (User u) ]} ∪ vd) = Some b
                    /\ guest b = u /\ booking_listing b = lid)
    as [b [Hinit [Hg Hlid]]].
  { unfold Booking_init.
    rewrite (lookup_union_Some_l _ vd "guest" (VUser (User u)))
      by apply lookup_singleton_eq.
    rewrite !Hother by discriminate. rewrite Hl, H1, H2, Hn.
    eexists. split; [reflexivity|]. split; reflexivity. }
  exists b. split; [|split; assumption].
  unfold BookingViewSet.POST_create, Generic.dispatch, BookingViewSet.permission_classes.
  rewrite (check_permissions_authenticated env _ _ request u Hu).
  unfold Generic.CreateModelMixin_create, Generic.get_valid_serializer.
  unfold BookingViewSet.self. cbn [serializer_class perform_create].
  view_unfold. unfold BookingViewSet.serializer_class. rewrite Hvalid.
  unfold BookingViewSet.perform_create, Generic.save. cbn [instance validated_data].
  view_unfold. rewrite Hu.
  unfold BookingViewSet.serializer_class. cbn [create BookingSerializer]. rewrite Hinit.
  unfold ORM.save.
  assert (pk b = ORM.next_pk (M:=Booking) db) as Hpk.
  { revert Hinit. unfold Booking_init.
    repeat (match goal with |- context [match ?x with _ => _ end] => destruct x end;
            try discriminate).
    all: intros Heq; injection Heq as <-; reflexivity. }
  rewrite Hpk, next_pk_fresh. reflexivity.
Qed.

Lemma booking_create_guest_is_caller_witness :
  exists b,
    BookingViewSet.POST_create Sample.env
      (Sample.request (User Sample.visitor) ∅
         {[ "listing" := VRef 1; "guest" := VUser (User Sample.stranger);
            "check_in" := VInt 20; "check_out" := VInt 23; "num_guests" := VInt 2 ]})
      Sample.db
    = (Response (BookingData b) HTTP_201_CREATED,
       {| Listing_objects := Listing_objects Sample.db;
          Booking_objects := Booking_objects Sample.db ++ [b];
          Review_objects := Review_objects Sample.db |})
    /\ guest b = Sample.visitor
    /\ booking_listing b = 1%nat.
Proof.
  apply (booking_create_guest_is_caller Sample.env _ Sample.db Sample.visitor
           {[ "listing" := VRef 1; "guest" := VUser (User Sample.stranger);
              "check_in" := VInt 20; "check_out" := VInt 23; "num_guests" := VInt 2 ]}
           1 20 23 2).
  - reflexivity.
  - reflexivity.
  - vm_compute. reflexivity.
  - vm_compute. reflexivity.
  - vm_compute. reflexivity.
  - vm_compute. reflexivity.
Defined.

(** ** Anonymous callers (C2) *)

(** C2: an anonymous caller may read listings: the list, an active listing
    by its key, and the reviews of that listing.  The review view set and
    the booking list refuse an anonymous caller as not authenticated; the
    booking query set, were it reached, would be empty. *)
Theorem anonymous_reads (env : Env) (request : Request) (db : DB) (f : Spec.Filters) :
  user request = AnonymousUser ->
  Spec.filters Spec.nonempty env (query_params request) = Some f ->
  let refused :=
    (Generic.handle_exception env
       (match authentication_classes env with
        | [] => PermissionDenied
        | _ :: _ => NotAuthenticated
        end), db) in
  ListingViewSet.GET_list env request db
  = (Response (ListingList (Spec.list_listings f db)) HTTP_200_OK, db)
  /\ (forall l,
        NoDup (map listing_id (Listing_objects db)) ->
        In l (Listing_objects db) -> Spec.satisfies f l = true ->
        ListingViewSet.GET_retrieve env request (listing_id l) db
        = (Response (ListingData l) HTTP_200_OK, db)
        /\ ListingViewSet.GET_reviews env request (listing_id l) db
           = (Response
                (ReviewList
                   (List.filter (fun r => (review_listing r =? listing_id l)%nat)
                      (Review_objects db)))
                HTTP_200_OK, db))
  /\ ReviewViewSet.GET_list env request db = refused
  /\ (forall key, ReviewViewSet.GET_retrieve env request key db = refused)
  /\ BookingViewSet.GET_list env request db = refused
  /\ (forall swagger_fake_view,
        BookingViewSet.get_queryset swagger_fake_view request db = (inr [], db)).
Proof.
  intros Hu Hf refused. repeat split.
  - now apply listing_GET_list.
  - unfold ListingViewSet.GET_retrieve, Generic.dispatch, Generic.RetrieveModelMixin_retrieve.
    simpl. view_unfold. now rewrite (listing_get_object env request db f).
  - unfold ListingViewSet.GET_reviews, Generic.dispatch, ListingViewSet.reviews.
    simpl. view_unfold. now rewrite (listing_get_object env request db f).
  - apply dispatch_anonymous_refused; [assumption|]. simpl. now rewrite Hu.
  - intros key. apply dispatch_anonymous_refused; [assumption|]. simpl. now rewrite Hu.
  - apply dispatch_anonymous_refused; [assumption|]. simpl. now rewrite Hu.
  - intros sw. now apply booking_queryset_anonymous.
Qed.

Lemma anonymous_reads_witness :
  ListingViewSet.GET_list Sample.env (Sample.request AnonymousUser ∅ ∅) Sample.db
  = (Response (ListingList (Spec.list_listings Sample.no_filters Sample.db)) HTTP_200_OK,
     Sample.db).
Proof.
  apply (anonymous_reads Sample.env (Sample.request AnonymousUser ∅ ∅) Sample.db
           Sample.no_filters).
  - reflexivity.
  - vm_compute. reflexivity.
Defined.

(** C2 as stated fails: an anonymous caller reading the review list is
    answered with an error (here 403, not authenticated). *)
Lemma review_list_anonymous :
  ReviewViewSet.GET_list Sample.env (Sample.request AnonymousUser ∅ ∅) Sample.db
  = (Response (Detail NotAuthenticated) HTTP_403_FORBIDDEN, Sample.db)
  /\ ReviewViewSet.GET_list Sample.env (Sample.request AnonymousUser ∅ ∅) Sample.db
     <> (Response (ReviewList (Review_objects Sample.db)) HTTP_200_OK, Sample.db).
Proof. split; [vm_compute; reflexivity | discriminate]. Qed.

(** ** The scenarios of the specification *)

(** With an upper bound of 80 the listing at 100 a night is left out. *)
Example scenario_excluded :
  ListingViewSet.GET_list Sample.env
    (Sample.request AnonymousUser
       {[ "min_price" := "50"; "max_price" := "80"; "location" := "austin" ]} ∅)
    Sample.db
  = (Response (ListingList []) HTTP_200_OK, Sample.db).
Proof. vm_compute. reflexivity. Qed.

(** The host confirms the booking; the guest then tries to cancel it, is
    answered 403, and the booking stays confirmed. *)
Example scenario_confirm_then_cancel :
  let confirm := Sample.request (User Sample.host) ∅ {[ "status" := VStr "confirmed" ]} in
  let cancel := Sample.request (User Sample.visitor) ∅ {[ "status" := VStr "cancelled" ]} in
  let '(r1, db1) := BookingViewSet.PATCH_update_status Sample.env confirm 1 Sample.db in
  let '(r2, db2) := BookingViewSet.PATCH_update_status Sample.env cancel 1 db1 in
  status_code r1 = HTTP_200_OK
  /\ status_code r2 = HTTP_403_FORBIDDEN
  /\ map status (Booking_objects db2) = ["confirmed"].
Proof. vm_compute. auto. Qed.

(** A price bound the store cannot read as a number makes the lookup
    raise; the exception is not an API exception and the server answers
    500. *)
Example listing_search_unreadable_price :
  ListingViewSet.GET_list Sample.env
    (Sample.request AnonymousUser {[ "min_price" := "cheap" ]} ∅) Sample.db
  = (Response (Detail LookupValueError) HTTP_500_INTERNAL_SERVER_ERROR, Sample.db).
Proof. vm_compute. reflexivity. Qed.

(** * Further properties of the views *)

(** ** The sub-resources of a listing *)





(** ** Creating listings and reviews *)

Lemma union_singleton_agree (k : string) (v : value) (vd1 vd2 : gmap string value) :
  delete k vd1 = delete k vd2 -> {[ k := v ]} ∪ vd1 = {[ k := v ]} ∪ vd2.
Proof.
  intros Hd. apply map_eq. intros i. destruct (decide (i = k)) as [->|Hne].
  - rewrite !(lookup_union_Some_l _ _ k v) by apply lookup_singleton_eq. reflexivity.
  - rewrite !lookup_union_r by (now apply lookup_singleton_ne).
    rewrite <- (lookup_delete_ne vd1 k i), <- (lookup_delete_ne vd2 k i) by congruence.
    now rewrite Hd.
Qed.

(** What the create action does for an authenticated caller whose payload
    is accepted, when the hook saves with one keyword argument. *)
Lemma create_with_kwarg {M : Type} `{Model M} (env : Env) (self : ViewSet M)
    (request : Request) (db : DB) (u : nat) (vd : gmap string value)
    (k : string) (p : permission) :
  permission_classes self = [p] ->
  perform_create self
  = (fun request serializer =>
       serializer' ← Generic.save (serializer_class self) serializer
                       {[ k := VUser (user request) ]};
       mret (None, serializer')) ->
  user request = User u ->
  run_validation (serializer_class self) None false (data request) = Some vd ->
  Generic.dispatch env (permission_classes self) POST request
    (Generic.CreateModelMixin_create self request) db
  = match create (serializer_class self) (ORM.next_pk (M:=M) db)
            ({[ k := VUser (User u) ]} ∪ vd) with
    | Some x => (Response (one x) HTTP_201_CREATED, snd (ORM.save x db))
    | None => (Response (Detail IntegrityError) HTTP_500_INTERNAL_SERVER_ERROR, db)
    end.
Proof.
  intros Hperm Hhook Hu Hvalid. unfold Generic.dispatch. rewrite Hperm.
  rewrite (check_permissions_authenticated env p POST request u Hu).
  unfold Generic.CreateModelMixin_create, Generic.get_valid_serializer.
  rewrite Hhook, Hvalid. unfold Generic.save. view_unfold.
  cbv beta iota. cbn [instance validated_data]. rewrite Hu.
  destruct (create _ _ _) as [x|]; [|reflexivity].
  unfold ORM.save. destruct (existsb _ _); reflexivity.
Qed.

(** X3: a created listing is built from the accepted payload with the owner
    set to the caller: an owner named in the payload is overridden, so two
    payloads that differ in it alone have the same outcome. *)
Theorem listing_create_owner_is_caller (env : Env) (r1 r2 : Request) (db : DB)
    (u : nat) (vd1 vd2 : gmap string value) :
  user r1 = User u -> user r2 = User u ->
  run_validation (ListingSerializer env) None false (data r1) = Some vd1 ->
  run_validation (ListingSerializer env) None false (data r2) = Some vd2 ->
  delete "owner" vd1 = delete "owner" vd2 ->
  ListingViewSet.POST_create env r1 db
  = match create (ListingSerializer env) (ORM.next_pk (M:=Listing) db)
            (<[ "owner" := VUser (User u) ]> vd1) with
    | Some l => (Response (ListingData l) HTTP_201_CREATED, snd (ORM.save l db))
    | None => (Response (Detail IntegrityError) HTTP_500_INTERNAL_SERVER_ERROR, db)
    end
  /\ ListingViewSet.POST_create env r1 db = ListingViewSet.POST_create env r2 db.
Proof.
  intros Hu1 Hu2 Hv1 Hv2 Hd.
  pose proof (create_with_kwarg env (ListingViewSet.self env) r1 db u vd1 "owner"
                IsAuthenticatedOrReadOnly eq_refl eq_refl Hu1 Hv1) as E1.
  pose proof (create_with_kwarg env (ListingViewSet.self env) r2 db u vd2 "owner"
                IsAuthenticatedOrReadOnly eq_refl eq_refl Hu2 Hv2) as E2.
  unfold ListingViewSet.POST_create.
  change ListingViewSet.permission_classes
    with (permission_classes (ListingViewSet.self env)).
  rewrite E1, E2. rewrite <- (union_singleton_agree "owner" _ vd1 vd2 Hd).
  now rewrite insert_union_singleton_l.
Qed.

Lemma listing_create_owner_is_caller_witness :
  ListingViewSet.POST_create Sample.env_creating
    (Sample.request (User Sample.visitor) ∅
       {[ "title" := VStr "Hut"; "owner" := VUser (User Sample.stranger) ]}) Sample.db
  = ListingViewSet.POST_create Sample.env_creating
      (Sample.request (User Sample.visitor) ∅ {[ "title" := VStr "Hut" ]}) Sample.db.
Proof.
  apply (listing_create_owner_is_caller Sample.env_creating
           (Sample.request (User Sample.visitor) ∅
              {[ "title" := VStr "Hut"; "owner" := VUser (User Sample.stranger) ]})
           (Sample.request (User Sample.visitor) ∅ {[ "title" := VStr "Hut" ]})
           Sample.db Sample.visitor
           {[ "title" := VStr "Hut"; "owner" := VUser (User Sample.stranger) ]}
           {[ "title" := VStr "Hut" ]}).
  - reflexivity.
  - reflexivity.
  - vm_compute. reflexivity.
  - vm_compute. reflexivity.
  - vm_compute. reflexivity.
Defined.

(** The listing stored for a payload that names somebody else as owner. *)
Example listing_create_owner_example :
  match fst (ListingViewSet.POST_create Sample.env_creating
               (Sample.request (User Sample.visitor) ∅
                  {[ "title" := VStr "Hut"; "owner" := VUser (User Sample.stranger) ]})
               Sample.db) with
  | Response (ListingData l) code => code = HTTP_201_CREATED /\ owner l = Sample.visitor
  | _ => False
  end.
Proof. vm_compute. auto. Qed.

(** X4: a created review is built from the accepted payload with the
    reviewer set to the caller: a reviewer named in the payload is
    overridden, so two payloads that differ in it alone have the same
    outcome. *)
Theorem review_create_reviewer_is_caller (env : Env) (r1 r2 : Request) (db : DB)
    (u : nat) (vd1 vd2 : gmap string value) :
  user r1 = User u -> user r2 = User u ->
  run_validation (ReviewSerializer env) None false (data r1) = Some vd1 ->
  run_validation (ReviewSerializer env) None false (data r2) = Some vd2 ->
  delete "reviewer" vd1 = delete "reviewer" vd2 ->
  ReviewViewSet.POST_create env r1 db
  = match create (ReviewSerializer env) (ORM.next_pk (M:=Review) db)
            (<[ "reviewer" := VUser (User u) ]> vd1) with
    | Some r => (Response (ReviewData r) HTTP_201_CREATED, snd (ORM.save r db))
    | None => (Response (Detail IntegrityError) HTTP_500_INTERNAL_SERVER_ERROR, db)
    end
  /\ ReviewViewSet.POST_create env r1 db = ReviewViewSet.POST_create env r2 db.
Proof.
  intros Hu1 Hu2 Hv1 Hv2 Hd.
  pose proof (create_with_kwarg env (ReviewViewSet.self env) r1 db u vd1 "reviewer"
                IsAuthenticated eq_refl eq_refl Hu1 Hv1) as E1.
  pose proof (create_with_kwarg env (ReviewViewSet.self env) r2 db u vd2 "reviewer"
                IsAuthenticated eq_refl eq_refl Hu2 Hv2) as E2.
  unfold ReviewViewSet.POST_create.
  change ReviewViewSet.permission_classes
    with (permission_classes (ReviewViewSet.self env)).
  rewrite E1, E2. rewrite <- (union_singleton_agree "reviewer" _ vd1 vd2 Hd).
  now rewrite insert_union_singleton_l.
Qed.

Lemma review_create_reviewer_is_caller_witness :
  ReviewViewSet.POST_create Sample.env_creating
    (Sample.request (User Sample.stranger) ∅
       {[ "listing" := VRef 1; "reviewer" := VUser (User Sample.host) ]}) Sample.db
  = ReviewViewSet.POST_create Sample.env_creating
      (Sample.request (User Sample.stranger) ∅ {[ "listing" := VRef 1 ]}) Sample.db.
Proof.
  apply (review_create_reviewer_is_caller Sample.env_creating
           (Sample.request (User Sample.stranger) ∅
              {[ "listing" := VRef 1; "reviewer" := VUser (User Sample.host) ]})
           (Sample.request (User Sample.stranger) ∅ {[ "listing" := VRef 1 ]})
           Sample.db Sample.stranger
           {[ "listing" := VRef 1; "reviewer" := VUser (User Sample.host) ]}
           {[ "listing" := VRef 1 ]}).
  - reflexivity.
  - reflexivity.
  - reflexivity.
  - reflexivity.
  - vm_compute. reflexivity.
Defined.

(** ** Listing update and delete by the owner, and rejected payloads *)





(** ** The listing search in every case *)

Lemma filter_sublist {A} (p : A -> bool) (l : list A) : sublist (List.filter p l) l.
Proof.
  induction l as [|x l IH]; simpl; [constructor|].
  destruct (p x); now constructor.
Qed.

Lemma listing_GET_list_bad_number (env : Env) (request : Request) (db : DB) :
  Spec.filters Spec.nonempty env (query_params request) = None ->
  ListingViewSet.GET_list env request db
  = (Response (Detail LookupValueError) HTTP_500_INTERNAL_SERVER_ERROR, db).
Proof.
  intros Hf. unfold ListingViewSet.GET_list, Generic.dispatch, Generic.ListModelMixin_list.
  simpl. view_unfold.
  now rewrite (get_queryset_bad_number env request db Hf).
Qed.

(** X7: whatever the query string and whoever asks, the listing search
    leaves the store as it is and either fails with a server error (a
    numeric parameter the store cannot read) or answers 200 with active
    listings only, each stored listing at most once and in storage order. *)
Theorem listing_search_shape (env : Env) (request : Request) (db : DB) :
  ListingViewSet.GET_list env request db
  = (Response (Detail LookupValueError) HTTP_500_INTERNAL_SERVER_ERROR, db)
  \/ exists qs,
       ListingViewSet.GET_list env request db
       = (Response (ListingList qs) HTTP_200_OK, db)
       /\ sublist qs (Listing_objects db)
       /\ forall l, In l qs -> is_active l = true.
Proof.
  destruct (Spec.filters Spec.nonempty env (query_params request)) as [f|] eqn:Hf.
  - right. exists (Spec.list_listings f db). split; [now apply listing_GET_list|].
    split; [apply filter_sublist|].
    intros l Hl. apply filter_In in Hl as [_ Hsat].
    unfold Spec.satisfies in Hsat.
    repeat (apply andb_true_iff in Hsat as [Hsat _]). exact Hsat.
  - left. now apply listing_GET_list_bad_number.
Qed.

Lemma filters_nonempty_ext (env : Env) (p1 p2 : gmap string string) :
  (forall k, Spec.nonempty (p1 !! k) = Spec.nonempty (p2 !! k)) ->
  Spec.filters Spec.nonempty env p1 = Spec.filters Spec.nonempty env p2.
Proof. intros Hk. unfold Spec.filters. now rewrite !Hk. Qed.

Lemma listing_GET_list_ext (env : Env) (r1 r2 : Request) (db : DB) :
  (forall k, Spec.nonempty (query_params r1 !! k) = Spec.nonempty (query_params r2 !! k)) ->
  ListingViewSet.GET_list env r1 db = ListingViewSet.GET_list env r2 db.
Proof.
  intros Hk. pose proof (filters_nonempty_ext env _ _ Hk) as Hf.
  destruct (Spec.filters Spec.nonempty env (query_params r2)) as [f|] eqn:Hf2.
  - now rewrite (listing_GET_list env r1 db f Hf), (listing_GET_list env r2 db f Hf2).
  - now rewrite (listing_GET_list_bad_number env r1 db Hf),
      (listing_GET_list_bad_number env r2 db Hf2).
Qed.

(** X8: a query parameter given with the empty text is the same as a
    parameter left out: the search answers alike, for every parameter name
    and every other content of the query string. *)
Theorem listing_search_empty_parameter (env : Env) (request : Request) (db : DB)
    (k : string) :
  ListingViewSet.GET_list env
    {| user := user request;
       query_params := <[ k := "" ]> (query_params request);
       data := data request |} db
  = ListingViewSet.GET_list env
      {| user := user request;
         query_params := delete k (query_params request);
         data := data request |} db.
Proof.
  apply listing_GET_list_ext. intros k'. simpl.
  destruct (decide (k = k')) as [->|Hne].
  - now rewrite lookup_insert_eq, lookup_delete_eq.
  - now rewrite lookup_insert_ne, lookup_delete_ne.
Qed.

(** ** The review list *)

Lemma review_GET_list (env : Env) (request : Request) (db : DB) (u : nat) :
  user request = User u ->
  ReviewViewSet.GET_list env request db
  = match ReviewViewSet.get_queryset env request db with
    | (inr qs, db') => (Response (ReviewList qs) HTTP_200_OK, db')
    | (inl exc, db') => (Generic.handle_exception env exc, db')
    end.
Proof.
  intros Hu. unfold ReviewViewSet.GET_list, Generic.dispatch, ReviewViewSet.permission_classes.
  rewrite (check_permissions_authenticated env _ _ request u Hu).
  unfold Generic.ListModelMixin_list. simpl. view_unfold.
  destruct (ReviewViewSet.get_queryset env request db) as [[exc|qs] db']; reflexivity.
Qed.

Lemma nonempty_truthy (s : string) : s <> "" -> truthy (Some s) = true /\ str (Some s) = s.
Proof. destruct s; [congruence | intros _; split; reflexivity]. Qed.

(** X9: for an authenticated caller the review list is every review when
    the [listing] parameter is absent or empty, exactly the reviews of
    listing [n] when the parameter reads as the number [n], and a server
    error when the parameter is not a number; the store is left as it is. *)
Theorem review_list_by_listing (env : Env) (request : Request) (db : DB) (u : nat) :
  user request = User u ->
  (truthy (query_params request !! "listing") = false ->
     ReviewViewSet.GET_list env request db
     = (Response (ReviewList (Review_objects db)) HTTP_200_OK, db))
  /\ (forall s n,
        query_params request !! "listing" = Some s -> s <> "" ->
        IntegerField_to_python env s = Some n ->
        ReviewViewSet.GET_list env request db
        = (Response
             (ReviewList
                (List.filter (fun r => (Z.of_nat (review_listing r) =? n)%Z)
                   (Review_objects db)))
             HTTP_200_OK, db))
  /\ (forall s,
        query_params request !! "listing" = Some s -> s <> "" ->
        IntegerField_to_python env s = None ->
        ReviewViewSet.GET_list env request db
        = (Response (Detail LookupValueError) HTTP_500_INTERNAL_SERVER_ERROR, db)).
Proof.
  intros Hu. rewrite (review_GET_list env request db u Hu).
  split; [|split].
  - intros Hno. now rewrite (review_queryset env request db Hno).
  - intros s n Hs Hne Hn. destruct (nonempty_truthy s Hne) as [Ht Hstr].
    unfold ReviewViewSet.get_queryset. view_unfold. rewrite Hs, Ht, Hstr.
    unfold ReviewViewSet.listing_id__exact. now rewrite Hn.
  - intros s Hs Hne Hn. destruct (nonempty_truthy s Hne) as [Ht Hstr].
    unfold ReviewViewSet.get_queryset. view_unfold. rewrite Hs, Ht, Hstr.
    unfold ReviewViewSet.listing_id__exact. now rewrite Hn.
Qed.

Lemma review_list_by_listing_witness :
  ReviewViewSet.GET_list Sample.env
    (Sample.request (User Sample.stranger) {[ "listing" := "2" ]} ∅) Sample.db
  = (Response
       (ReviewList
          (List.filter (fun r => (Z.of_nat (review_listing r) =? 2)%Z)
             (Review_objects Sample.db)))
       HTTP_200_OK, Sample.db).
Proof.
  refine (proj1 (proj2 (review_list_by_listing Sample.env
           (Sample.request (User Sample.stranger) {[ "listing" := "2" ]} ∅)
           Sample.db Sample.stranger _)) "2" 2%Z _ _ _).
  - reflexivity.
  - vm_compute. reflexivity.
  - discriminate.
  - vm_compute. reflexivity.
Defined.

(** X10: the two ways to read the reviews of a listing agree: the review
    list restricted by the [listing] parameter to the key of a listing, and
    the reviews sub-resource of that listing, answer with the same reviews. *)
Theorem review_list_agrees_with_listing_reviews (env : Env) (r1 r2 : Request)
    (db : DB) (f : Spec.Filters) (l : Listing) (u : nat) (s : string) :
  NoDup (map listing_id (Listing_objects db)) ->
  In l (Listing_objects db) ->
  (* the review list, by an authenticated caller *)
  user r1 = User u ->
  query_params r1 !! "listing" = Some s -> s <> "" ->
  IntegerField_to_python env s = Some (Z.of_nat (listing_id l)) ->
  (* the sub-resource of the listing, by any caller *)
  Spec.filters Spec.nonempty env (query_params r2) = Some f ->
  Spec.satisfies f l = true ->
  ReviewViewSet.GET_list env r1 db = ListingViewSet.GET_reviews env r2 (listing_id l) db.
Proof.
  intros Hkeys Hin Hu Hs Hne Hn Hf Hsat.
  rewrite (review_GET_list env r1 db u Hu).
  destruct (nonempty_truthy s Hne) as [Ht Hstr].
  unfold ReviewViewSet.get_queryset. view_unfold. rewrite Hs, Ht, Hstr.
  unfold ReviewViewSet.listing_id__exact. rewrite Hn. view_unfold.
  unfold ListingViewSet.GET_reviews, Generic.dispatch, ListingViewSet.reviews.
  simpl. view_unfold. rewrite (listing_get_object env r2 db f Hkeys Hf l Hin Hsat).
  do 3 f_equal. apply filter_ext. intros r.
  destruct (Nat.eqb_spec (review_listing r) (listing_id l)) as [->|Hneq].
  - apply Z.eqb_refl.
  - apply Z.eqb_neq. lia.
Qed.

Lemma review_list_agrees_with_listing_reviews_witness :
  ReviewViewSet.GET_list Sample.env
    (Sample.request (User Sample.stranger) {[ "listing" := "1" ]} ∅) Sample.db
  = ListingViewSet.GET_reviews Sample.env (Sample.request AnonymousUser ∅ ∅)
      (listing_id Sample.loft) Sample.db.
Proof.
  apply (review_list_agrees_with_listing_reviews Sample.env
           (Sample.request (User Sample.stranger) {[ "listing" := "1" ]} ∅)
           (Sample.request AnonymousUser ∅ ∅) Sample.db Sample.no_filters Sample.loft
           Sample.stranger "1").
  - apply (bool_decide_unpack _). vm_compute. reflexivity.
  - simpl. left. reflexivity.
  - reflexivity.
  - vm_compute. reflexivity.
  - discriminate.
  - vm_compute. reflexivity.
  - vm_compute. reflexivity.
  - vm_compute. reflexivity.
Defined.

(** ** Reading and deleting a booking by its key *)

(** X11: a booking is shown by its key to its guest and to the owner of
    its listing; to any other authenticated user it is not found. *)
Theorem booking_retrieve_visibility (env : Env) (request : Request) (db : DB)
    (b : Booking) (l : Listing) (u : nat) :
  NoDup (map booking_id (Booking_objects db)) ->
  NoDup (map listing_id (Listing_objects db)) ->
  In b (Booking_objects db) ->
  In l (Listing_objects db) -> listing_id l = booking_listing b ->
  user request = User u ->
  (guest b = u \/ owner l = u ->
     BookingViewSet.GET_retrieve env request (booking_id b) db
     = (Response (BookingData b) HTTP_200_OK, db))
  /\ (guest b <> u -> owner l <> u ->
        BookingViewSet.GET_retrieve env request (booking_id b) db
        = (Response (Detail Http404) HTTP_404_NOT_FOUND, db)).
Proof.
  intros Hbk Hlk Hb Hl Hid Hu.
  split; [intros Hwho | intros Hg Ho];
    unfold BookingViewSet.GET_retrieve, Generic.dispatch, BookingViewSet.permission_classes;
    rewrite (check_permissions_authenticated env _ _ request u Hu);
    unfold Generic.RetrieveModelMixin_retrieve; view_unfold.
  - now rewrite (booking_get_object env request db u Hbk Hu b l Hb Hl Hid Hwho).
  - rewrite (booking_get_object_hidden env request db u Hbk Hu b Hb Hg); [reflexivity|].
    intros l' Hl' Hid'.
    assert (l' = l) as ->; [|assumption].
    apply (unique_pk_inj (M:=Listing) (Listing_objects db)); auto.
    simpl. congruence.
Qed.

Lemma booking_retrieve_visibility_witness :
  BookingViewSet.GET_retrieve Sample.env (Sample.request (User Sample.stranger) ∅ ∅) 1
    Sample.db
  = (Response (Detail Http404) HTTP_404_NOT_FOUND, Sample.db).
Proof.
  refine (proj2 (booking_retrieve_visibility Sample.env
           (Sample.request (User Sample.stranger) ∅ ∅) Sample.db Sample.stay Sample.loft
           Sample.stranger _ _ _ _ _ _) _ _).
  - apply (bool_decide_unpack _). vm_compute. reflexivity.
  - apply (bool_decide_unpack _). vm_compute. reflexivity.
  - simpl. left. reflexivity.
  - simpl. left. reflexivity.
  - reflexivity.
  - reflexivity.
  - vm_compute. lia.
  - vm_compute. lia.
Defined.

(** X12: the view set inherits the delete action unchanged, so a booking
    can be deleted by its guest and by the owner of its listing: the answer
    is 204 and exactly the booking of that key leaves the store.  For any
    other authenticated user the booking is not found and stays. *)
Theorem booking_delete_by_guest_or_owner (env : Env) (request : Request) (db : DB)
    (b : Booking) (l : Listing) (u : nat) :
  NoDup (map booking_id (Booking_objects db)) ->
  NoDup (map listing_id (Listing_objects db)) ->
  In b (Booking_objects db) ->
  In l (Listing_objects db) -> listing_id l = booking_listing b ->
  user request = User u ->
  (guest b = u \/ owner l = u ->
     BookingViewSet.DELETE_destroy env request (booking_id b) db
     = (Response NoContent HTTP_204_NO_CONTENT,
        {| Listing_objects := Listing_objects db;
           Booking_objects :=
             List.filter (fun y => negb (booking_id y =? booking_id b)%nat)
               (Booking_objects db);
           Review_objects := Review_objects db |}))
  /\ (guest b <> u -> owner l <> u ->
        BookingViewSet.DELETE_destroy env request (booking_id b) db
        = (Response (Detail Http404) HTTP_404_NOT_FOUND, db)).
Proof.
  intros Hbk Hlk Hb Hl Hid Hu.
  split; [intros Hwho | intros Hg Ho];
    unfold BookingViewSet.DELETE_destroy, Generic.dispatch, BookingViewSet.permission_classes;
    rewrite (check_permissions_authenticated env _ _ request u Hu);
    unfold Generic.DestroyModelMixin_destroy; view_unfold.
  - now rewrite (booking_get_object env request db u Hbk Hu b l Hb Hl Hid Hwho).
  - rewrite (booking_get_object_hidden env request db u Hbk Hu b Hb Hg); [reflexivity|].
    intros l' Hl' Hid'.
    assert (l' = l) as ->; [|assumption].
    apply (unique_pk_inj (M:=Listing) (Listing_objects db)); auto.
    simpl. congruence.
Qed.

Lemma booking_delete_by_guest_or_owner_witness :
  BookingViewSet.DELETE_destroy Sample.env (Sample.request (User Sample.visitor) ∅ ∅) 1
    Sample.db
  = (Response NoContent HTTP_204_NO_CONTENT,
     {| Listing_objects := Listing_objects Sample.db;
        Booking_objects :=
          List.filter (fun y => negb (booking_id y =? booking_id Sample.stay)%nat)
            (Booking_objects Sample.db);
        Review_objects := Review_objects Sample.db |}).
Proof.
  refine (proj1 (booking_delete_by_guest_or_owner Sample.env
           (Sample.request (User Sample.visitor) ∅ ∅) Sample.db Sample.stay Sample.loft
           Sample.visitor _ _ _ _ _ _) _).
  - apply (bool_decide_unpack _). vm_compute. reflexivity.
  - apply (bool_decide_unpack _). vm_compute. reflexivity.
  - simpl. left. reflexivity.
  - simpl. left. reflexivity.
  - reflexivity.
  - reflexivity.
  - left. reflexivity.
Defined.

(** ** What a status update does to the store *)

Lemma replace_keys (rows : list Booking) (key : nat) (b' : Booking) :
  booking_id b' = key ->
  map booking_id (map (fun y => if (booking_id y =? key)%nat then b' else y) rows)
  = map booking_id rows.
Proof.
  intros Hid. rewrite map_map. apply map_ext. intros y.
  destruct (Nat.eqb_spec (booking_id y) key); congruence.
Qed.

Lemma replace_In (rows : list Booking) (b b' : Booking) :
  In b rows ->
  In b' (map (fun y => if (booking_id y =? booking_id b)%nat then b' else y) rows).
Proof.
  intros Hin. apply in_map_iff. exists b. now rewrite Nat.eqb_refl.
Qed.

(** The store after the status route: as before, or with the rows of that
    key replaced by a stored booking carrying one of the four values. *)
Lemma update_status_store (env : Env) (request : Request) (key : nat) (db : DB) :
  snd (BookingViewSet.PATCH_update_status env request key db) = db
  \/ exists b s,
       In b (Booking_objects db) /\ booking_id b = key
       /\ In s BookingViewSet.valid_statuses
       /\ snd (BookingViewSet.PATCH_update_status env request key db)
          = {| Listing_objects := Listing_objects db;
               Booking_objects :=
                 map (fun y => if (booking_id y =? key)%nat
                               then BookingViewSet.set_status b s else y)
                   (Booking_objects db);
               Review_objects := Review_objects db |}.
Proof.
  destruct (user request) as [|u] eqn:Hu.
  - left.
    unfold BookingViewSet.PATCH_update_status, BookingViewSet.permission_classes.
    rewrite (dispatch_anonymous_refused env IsAuthenticated PATCH request _ db Hu);
      [reflexivity|]. simpl. now rewrite Hu.
  - destruct (booking_queryset_user request db u Hu) as [qs [Hqs [Hnd Hmem]]].
    rewrite (update_status_user env request key db u qs Hu Hqs).
    destruct (List.filter (ORM.pk_is key) qs) as [|x [|y rest]] eqn:Hx;
      try (left; reflexivity).
    apply filter_singleton in Hx as [Hx Hkey].
    apply Hmem in Hx as [Hx _]. apply Nat.eqb_eq in Hkey. simpl in Hkey.
    destruct (List.filter (ORM.pk_is (booking_listing x)) (Listing_objects db))
      as [|l [|l' rest]]; try (left; reflexivity).
    destruct (user_ne (owner l) (User u)); [left; reflexivity|].
    destruct (BookingViewSet.status_in _ _) eqn:Hin; [|left; reflexivity].
    apply status_in_valid in Hin as [s [Hs Hin]].
    right. exists x, s. repeat split; auto.
    rewrite Hs. simpl.
    rewrite (save_existing_booking db x (BookingViewSet.set_status x s) Hx eq_refl).
    simpl. now rewrite Hkey.
Qed.

(** X13: whoever calls the status route and whatever is sent, listings and
    reviews stay as they are, and the bookings keep their keys, order,
    listing, guest, dates and guest count: only a status can change, only on
    the booking of the given key, and only to one of the four values. *)
Theorem update_status_touches_status_only (env : Env) (request : Request)
    (key : nat) (db : DB) :
  NoDup (map booking_id (Booking_objects db)) ->
  let db' := snd (BookingViewSet.PATCH_update_status env request key db) in
  Listing_objects db' = Listing_objects db
  /\ Review_objects db' = Review_objects db
  /\ map (fun y => BookingViewSet.set_status y "") (Booking_objects db')
     = map (fun y => BookingViewSet.set_status y "") (Booking_objects db)
  /\ NoDup (map booking_id (Booking_objects db'))
  /\ (forall y, In y (Booking_objects db) -> booking_id y <> key ->
                In y (Booking_objects db'))
  /\ ((forall y, In y (Booking_objects db) -> In (status y) BookingViewSet.valid_statuses) ->
      forall y, In y (Booking_objects db') -> In (status y) BookingViewSet.valid_statuses).
Proof.
  intros Hkeys db'.
  destruct (update_status_store env request key db) as [Hsame|[b [s [Hb [Hid [Hs Hnew]]]]]];
    unfold db'.
  - rewrite Hsame. repeat split; auto.
  - rewrite Hnew. simpl. split; [reflexivity|]. split; [reflexivity|].
    split; [|split; [|split]].
    + rewrite map_map. apply map_ext_in. intros y Hy.
      destruct (Nat.eqb_spec (booking_id y) key) as [Heq|]; [|reflexivity].
      assert (y = b) as ->; [|reflexivity].
      apply (unique_pk_inj (M:=Booking) (Booking_objects db)); auto.
      simpl. congruence.
    + now rewrite (replace_keys (Booking_objects db) key (BookingViewSet.set_status b s) Hid).
    + intros y Hy Hne. apply in_map_iff. exists y. split; [|assumption].
      destruct (Nat.eqb_spec (booking_id y) key); congruence.
    + intros Hvalid y Hy. apply in_map_iff in Hy as [z [Hz Hin]].
      destruct (booking_id z =? key)%nat.
      * subst y. exact Hs.
      * subst y. now apply Hvalid.
Qed.

Lemma update_status_touches_status_only_witness :
  Listing_objects
    (snd (BookingViewSet.PATCH_update_status Sample.env
            (Sample.request (User Sample.host) ∅ {[ "status" := VStr "completed" ]}) 1
            Sample.db))
  = Listing_objects Sample.db.
Proof.
  refine (proj1 (update_status_touches_status_only Sample.env
           (Sample.request (User Sample.host) ∅ {[ "status" := VStr "completed" ]}) 1
           Sample.db _)).
  apply (bool_decide_unpack _). vm_compute. reflexivity.
Defined.

Section OwnerUpdate.
Variable env : Env.
Variables (db : DB) (b : Booking) (l : Listing).
Hypothesis Hbk : NoDup (map booking_id (Booking_objects db)).
Hypothesis Hlk : NoDup (map listing_id (Listing_objects db)).
Hypothesis Hb : In b (Booking_objects db).
Hypothesis Hl : In l (Listing_objects db).
Hypothesis Hid : listing_id l = booking_listing b.

(** The owner's update with a valid value, and the store it leaves. *)
Lemma owner_update (request : Request) (s : string) :
  user request = User (owner l) ->
  data request !! "status" = Some (VStr s) ->
  In s BookingViewSet.valid_statuses ->
  let db1 :=
    {| Listing_objects := Listing_objects db;
       Booking_objects :=
         map (fun y => if (booking_id y =? booking_id b)%nat
                       then BookingViewSet.set_status b s else y)
           (Booking_objects db);
       Review_objects := Review_objects db |} in
  BookingViewSet.PATCH_update_status env request (booking_id b) db
  = (Response (BookingData (BookingViewSet.set_status b s)) HTTP_200_OK, db1)
  /\ NoDup (map booking_id (Booking_objects db1))
  /\ In (BookingViewSet.set_status b s) (Booking_objects db1).
Proof using Hbk Hlk Hb Hl Hid.
  intros Hu Hs Hin db1. split; [|split].
  - rewrite (update_status_seen env request db (owner l) b l) by auto.
    rewrite user_ne_same.
    assert (BookingViewSet.status_in (data request !! "status")
              BookingViewSet.valid_statuses = true) as ->.
    { apply status_in_valid. eauto. }
    rewrite Hs. reflexivity.
  - simpl.
    now rewrite (replace_keys (Booking_objects db) (booking_id b)
                   (BookingViewSet.set_status b s) eq_refl).
  - simpl. now apply replace_In.
Qed.

(** X14: the last status written wins: when the owner sets one valid
    status and then another, the answer and the store are the same as if
    only the second had been set; no value blocks the next. *)
Theorem update_status_last_write_wins (r1 r2 : Request) (s1 s2 : string) :
  user r1 = User (owner l) -> user r2 = User (owner l) ->
  data r1 !! "status" = Some (VStr s1) -> data r2 !! "status" = Some (VStr s2) ->
  In s1 BookingViewSet.valid_statuses -> In s2 BookingViewSet.valid_statuses ->
  BookingViewSet.PATCH_update_status env r2 (booking_id b)
    (snd (BookingViewSet.PATCH_update_status env r1 (booking_id b) db))
  = BookingViewSet.PATCH_update_status env r2 (booking_id b) db.
Proof using Hbk Hlk Hb Hl Hid.
  intros Hu1 Hu2 Hs1 Hs2 Hin1 Hin2.
  destruct (owner_update r1 s1 Hu1 Hs1 Hin1) as [E1 [Hbk1 Hb1]].
  destruct (owner_update r2 s2 Hu2 Hs2 Hin2) as [E2 _].
  rewrite E1, E2. cbn [snd].
  set (b1 := BookingViewSet.set_status b s1) in *.
  set (db1 := {| Listing_objects := Listing_objects db;
                 Booking_objects := map _ (Booking_objects db);
                 Review_objects := Review_objects db |}) in *.
  change (booking_id b) with (booking_id b1) at 1.
  rewrite (update_status_seen env r2 db1 (owner l) b1 l Hbk1 Hlk Hu2 Hb1 Hl Hid
             (or_intror eq_refl)).
  rewrite user_ne_same.
  assert (BookingViewSet.status_in (data r2 !! "status")
            BookingViewSet.valid_statuses = true) as ->.
  { apply status_in_valid. eauto. }
  rewrite Hs2. cbn zeta. f_equal. unfold db1. simpl. f_equal.
  rewrite map_map. apply map_ext. intros y.
  destruct (Nat.eqb_spec (booking_id y) (booking_id b)) as [Heq|Hne].
  - simpl. now rewrite Nat.eqb_refl.
  - simpl. destruct (Nat.eqb_spec (booking_id y) (booking_id b)); congruence.
Qed.

(** X15: a status the owner has set is what the booking shows afterwards,
    to its guest and to the owner alike. *)
Theorem update_status_then_retrieve (r1 r2 : Request) (s : string) (v : nat) :
  user r1 = User (owner l) ->
  data r1 !! "status" = Some (VStr s) ->
  In s BookingViewSet.valid_statuses ->
  user r2 = User v -> v = guest b \/ v = owner l ->
  let db1 := snd (BookingViewSet.PATCH_update_status env r1 (booking_id b) db) in
  BookingViewSet.GET_retrieve env r2 (booking_id b) db1
  = (Response (BookingData (BookingViewSet.set_status b s)) HTTP_200_OK, db1).
Proof using Hbk Hlk Hb Hl Hid.
  intros Hu1 Hs Hin Hu2 Hv.
  destruct (owner_update r1 s Hu1 Hs Hin) as [E1 [Hbk1 Hb1]].
  rewrite E1. cbn [snd]. cbv zeta.
  set (b1 := BookingViewSet.set_status b s) in *.
  set (db1 := {| Listing_objects := Listing_objects db;
                 Booking_objects := map _ (Booking_objects db);
                 Review_objects := Review_objects db |}) in *.
  unfold BookingViewSet.GET_retrieve, Generic.dispatch, BookingViewSet.permission_classes.
  rewrite (check_permissions_authenticated env _ _ r2 v Hu2).
  unfold Generic.RetrieveModelMixin_retrieve. view_unfold.
  change (booking_id b) with (booking_id b1).
  rewrite (booking_get_object env r2 db1 v Hbk1 Hu2 b1 l Hb1 Hl Hid); [reflexivity|].
  destruct Hv as [->| ->]; [left|right]; reflexivity.
Qed.

End OwnerUpdate.

Lemma update_status_last_write_wins_witness :
  BookingViewSet.PATCH_update_status Sample.env
    (Sample.request (User Sample.host) ∅ {[ "status" := VStr "cancelled" ]}) 1
    (snd (BookingViewSet.PATCH_update_status Sample.env
            (Sample.request (User Sample.host) ∅ {[ "status" := VStr "completed" ]}) 1
            Sample.db))
  = BookingViewSet.PATCH_update_status Sample.env
      (Sample.request (User Sample.host) ∅ {[ "status" := VStr "cancelled" ]}) 1 Sample.db.
Proof.
  apply (update_status_last_write_wins Sample.env Sample.db Sample.stay Sample.loft)
    with (s1 := "completed") (s2 := "cancelled").
  - apply (bool_decide_unpack _). vm_compute. reflexivity.
  - apply (bool_decide_unpack _). vm_compute. reflexivity.
  - simpl. left. reflexivity.
  - simpl. left. reflexivity.
  - reflexivity.
  - reflexivity.
  - reflexivity.
  - vm_compute. reflexivity.
  - vm_compute. reflexivity.
  - simpl. right. right. right. left. reflexivity.
  - simpl. right. right. left. reflexivity.
Defined.

Lemma update_status_then_retrieve_witness :
  BookingViewSet.GET_retrieve Sample.env (Sample.request (User Sample.visitor) ∅ ∅) 1
    (snd (BookingViewSet.PATCH_update_status Sample.env
            (Sample.request (User Sample.host) ∅ {[ "status" := VStr "confirmed" ]}) 1
            Sample.db))
  = (Response (BookingData (BookingViewSet.set_status Sample.stay "confirmed")) HTTP_200_OK,
     snd (BookingViewSet.PATCH_update_status Sample.env
            (Sample.request (User Sample.host) ∅ {[ "status" := VStr "confirmed" ]}) 1
            Sample.db)).
Proof.
  apply (update_status_then_retrieve Sample.env Sample.db Sample.stay Sample.loft)
    with (v := Sample.visitor).
  - apply (bool_decide_unpack _). vm_compute. reflexivity.
  - apply (bool_decide_unpack _). vm_compute. reflexivity.
  - simpl. left. reflexivity.
  - simpl. left. reflexivity.
  - reflexivity.
  - reflexivity.
  - vm_compute. reflexivity.
  - simpl. right. left. reflexivity.
  - reflexivity.
  - left. reflexivity.
Defined.

(** ** A created booking in its maker's list *)

(** X16: a booking created on a stored listing gets a key no stored booking
    has, and from then on it is in the booking list of the guest who made
    it and in the list of the owner of the listing. *)
Theorem booking_create_then_list (env : Env) (request : Request) (db : DB)
    (u : nat) (vd : gmap string value) (l : Listing) (d1 d2 n : Z) :
  NoDup (map booking_id (Booking_objects db)) ->
  In l (Listing_objects db) ->
  user request = User u ->
  run_validation (BookingSerializer env) None false (data request) = Some vd ->
  vd !! "listing" = Some (VRef (listing_id l)) ->
  vd !! "check_in" = Some (VInt d1) ->
  vd !! "check_out" = Some (VInt d2) ->
  vd !! "num_guests" = Some (VInt n) ->
  exists b db',
    BookingViewSet.POST_create env request db = (Response (BookingData b) HTTP_201_CREATED, db')
    /\ ~ In (booking_id b) (map booking_id (Booking_objects db))
    /\ NoDup (map booking_id (Booking_objects db'))
    /\ forall request' v,
         user request' = User v -> v = u \/ v = owner l ->
         exists qs,
           BookingViewSet.GET_list env request' db'
           = (Response (BookingList qs) HTTP_200_OK, db')
           /\ In b qs.
Proof.
  intros Hkeys Hl Hu Hvalid Hlid H1 H2 Hn.
  assert (forall k, k <> "guest" ->
            ({[ "guest" := VUser (User u) ]} ∪ vd) !! k = vd !! k) as Hother.
  { intros k Hk. apply lookup_union_r. now apply lookup_singleton_ne. }
  pose proof (create_with_kwarg env (BookingViewSet.self env) request db u vd "guest"
                IsAuthenticated eq_refl eq_refl Hu Hvalid) as Hcreate.
  cbn [serializer_class BookingViewSet.self create BookingViewSet.serializer_class
         BookingSerializer] in Hcreate.
  unfold Booking_init in Hcreate.
  rewrite (lookup_union_Some_l _ vd "guest" (VUser (User u)))
    in Hcreate by apply lookup_singleton_eq.
  rewrite !Hother, Hlid, H1, H2, Hn in Hcreate by discriminate.
  set (b := {| booking_id := ORM.next_pk (M:=Booking) db;
               booking_listing := listing_id l; guest := u;
               status := _; check_in := d1; check_out := d2; num_guests := n |})
    in Hcreate.
  assert (existsb (ORM.pk_is (pk b)) (Booking_objects db) = false) as Hfresh
    by exact (next_pk_fresh (M:=Booking) db).
  assert (~ In (booking_id b) (map booking_id (Booking_objects db))) as Hnew.
  { intros Hin. apply in_map_iff in Hin as [y [Hy Hiny]].
    assert (existsb (ORM.pk_is (pk b)) (Booking_objects db) = true) as Ht.
    { apply existsb_exists. exists y. split; [assumption|]. now apply Nat.eqb_eq. }
    congruence. }
  exists b, {| Listing_objects := Listing_objects db;
               Booking_objects := Booking_objects db ++ [b];
               Review_objects := Review_objects db |}.
  split; [|split; [exact Hnew|split]].
  - unfold BookingViewSet.POST_create.
    change BookingViewSet.permission_classes
      with (permission_classes (BookingViewSet.self env)).
    rewrite Hcreate. unfold ORM.save. cbn [objects Booking_model].
    now rewrite Hfresh.
  - cbn [Booking_objects]. rewrite map_app. simpl.
    apply NoDup_app. split; [assumption|]. split.
    + intros x Hx Hx'. apply list_elem_of_In in Hx.
      apply list_elem_of_In in Hx' as [<-|[]]. contradiction.
    + apply NoDup_singleton.
  - intros request' v Hv Hwho.
    set (db' := {| Listing_objects := Listing_objects db;
                   Booking_objects := Booking_objects db ++ [b];
                   Review_objects := Review_objects db |}).
    destruct (booking_queryset_user request' db' v Hv) as [qs [Hqs [Hnd Hmem]]].
    exists qs. split.
    + unfold BookingViewSet.GET_list, Generic.dispatch, BookingViewSet.permission_classes.
      rewrite (check_permissions_authenticated env _ _ request' v Hv).
      unfold Generic.ListModelMixin_list, BookingViewSet.self. cbn [get_queryset].
      view_unfold. now rewrite Hqs.
    + apply Hmem. split.
      * simpl. apply in_or_app. right. now left.
      * exists l. split; [assumption|]. split; [reflexivity|].
        destruct Hwho as [->| ->]; [left|right]; reflexivity.
Qed.

Lemma booking_create_then_list_witness :
  exists b db',
    BookingViewSet.POST_create Sample.env
      (Sample.request (User Sample.stranger) ∅
         {[ "listing" := VRef 1; "check_in" := VInt 30; "check_out" := VInt 31;
            "num_guests" := VInt 1 ]})
      Sample.db
    = (Response (BookingData b) HTTP_201_CREATED, db')
    /\ ~ In (booking_id b) (map booking_id (Booking_objects Sample.db))
    /\ NoDup (map booking_id (Booking_objects db'))
    /\ forall request' v,
         user request' = User v -> v = Sample.stranger \/ v = owner Sample.loft ->
         exists qs,
           BookingViewSet.GET_list Sample.env request' db'
           = (Response (BookingList qs) HTTP_200_OK, db')
           /\ In b qs.
Proof.
  apply (booking_create_then_list Sample.env _ Sample.db Sample.stranger
           {[ "listing" := VRef 1; "check_in" := VInt 30; "check_out" := VInt 31;
              "num_guests" := VInt 1 ]}
           Sample.loft 30 31 1).
  - apply (bool_decide_unpack _). vm_compute. reflexivity.
  - simpl. left. reflexivity.
  - reflexivity.
  - reflexivity.
  - vm_compute. reflexivity.
  - vm_compute. reflexivity.
  - vm_compute. reflexivity.
  - vm_compute. reflexivity.
Defined.

(** ** Routes that never write *)

Lemma readonly_ret {A} (a : A) : readonly (mret a).
Proof. intros db. reflexivity. Qed.

Lemma readonly_raise {A} (e : exception) : readonly (raise (A:=A) e).
Proof. intros db. reflexivity. Qed.

Lemma readonly_get_db : readonly get_db.
Proof. intros db. reflexivity. Qed.

Lemma readonly_bind {A B} (m : View A) (k : A -> View B) :
  readonly m -> (forall a, readonly (k a)) -> readonly (m ≫= k).
Proof.
  intros Hm Hk db. unfold mbind, View_bind. specialize (Hm db).
  destruct (m db) as [[e|a] db']; simpl in *; subst db'; [reflexivity | apply Hk].
Qed.

Lemma readonly_check_permissions (env : Env) (perms : list permission) (m : method)
    (request : Request) :
  readonly (Generic.check_permissions env perms m request).
Proof.
  induction perms as [|p perms IH]; simpl; [apply readonly_ret|].
  destruct (has_permission p m request); [exact IH|].
  unfold Generic.permission_denied.
  destruct (authentication_classes env); [apply readonly_raise|].
  destruct (negb _); apply readonly_raise.
Qed.

Lemma readonly_dispatch (env : Env) (perms : list permission) (m : method)
    (request : Request) (handler : View HttpResponse) (db : DB) :
  readonly handler ->
  snd (Generic.dispatch env perms m request handler db) = db.
Proof.
  intros Hh. unfold Generic.dispatch.
  pose proof (readonly_bind (Generic.check_permissions env perms m request)
                (fun _ => handler) (readonly_check_permissions env perms m request)
                (fun _ => Hh) db) as Hb.
  destruct ((Generic.check_permissions env perms m request;; handler) db) as [[e|r] db'];
    exact Hb.
Qed.

Lemma readonly_get_object_or_404 {M : Type} `{Model M} (qs : list M) (key : nat) :
  readonly (ORM.get_object_or_404 qs key).
Proof.
  intros db. unfold ORM.get_object_or_404, ORM.get.
  destruct (List.filter (ORM.pk_is key) qs) as [|x [|y rest]]; reflexivity.
Qed.

Lemma readonly_get_object {M : Type} `{Model M} (self : ViewSet M) (request : Request)
    (key : nat) :
  readonly (get_queryset self request) -> readonly (Generic.get_object self request key).
Proof.
  intros Hq. unfold Generic.get_object. apply readonly_bind; [exact Hq|].
  intros qs. apply readonly_get_object_or_404.
Qed.

Lemma readonly_listing_queryset (env : Env) (request : Request) :
  readonly (ListingViewSet.get_queryset env request).
Proof.
  intros db.
  destruct (Spec.filters Spec.nonempty env (query_params request)) as [f|] eqn:Hf.
  - now rewrite (get_queryset_filters env request db f Hf).
  - now rewrite (get_queryset_bad_number env request db Hf).
Qed.

Lemma readonly_booking_queryset (swagger_fake_view : bool) (request : Request) :
  readonly (BookingViewSet.get_queryset swagger_fake_view request).
Proof.
  intros db. unfold BookingViewSet.get_queryset.
  destruct swagger_fake_view; [reflexivity|].
  destruct (negb _); reflexivity.
Qed.

Lemma readonly_review_queryset (env : Env) (request : Request) :
  readonly (ReviewViewSet.get_queryset env request).
Proof.
  intros db. unfold ReviewViewSet.get_queryset, ReviewViewSet.listing_id__exact.
  view_unfold. destruct (truthy _); [|reflexivity].
  destruct (IntegerField_to_python env _); reflexivity.
Qed.

(** X17: no route bound to [GET] ever changes the store, whoever calls it,
    with whatever query string, key or body, and whether it answers with
    data or with an error. *)
Theorem reads_never_write (env : Env) (request : Request) (key : nat) (db : DB) :
  Forall (fun route => snd (route db) = db) (Routes.reads env request key).
Proof.
  unfold Routes.reads. repeat constructor.
  - apply readonly_dispatch. unfold Generic.ListModelMixin_list.
    apply readonly_bind; [apply readonly_listing_queryset|]. intros; apply readonly_ret.
  - apply readonly_dispatch. unfold Generic.RetrieveModelMixin_retrieve.
    apply readonly_bind; [|intros; apply readonly_ret].
    apply readonly_get_object, readonly_listing_queryset.
  - apply readonly_dispatch. unfold ListingViewSet.reviews.
    apply readonly_bind; [apply readonly_get_object, readonly_listing_queryset|].
    intros l. apply readonly_bind; [apply readonly_get_db|]. intros; apply readonly_ret.
  - apply readonly_dispatch. unfold ListingViewSet.bookings.
    apply readonly_bind; [apply readonly_get_object, readonly_listing_queryset|].
    intros l. destruct (user_ne _ _); [apply readonly_ret|].
    apply readonly_bind; [apply readonly_get_db|]. intros; apply readonly_ret.
  - apply readonly_dispatch. unfold Generic.ListModelMixin_list.
    apply readonly_bind; [apply readonly_booking_queryset|]. intros; apply readonly_ret.
  - apply readonly_dispatch. unfold Generic.RetrieveModelMixin_retrieve.
    apply readonly_bind; [|intros; apply readonly_ret].
    apply readonly_get_object, readonly_booking_queryset.
  - apply readonly_dispatch. unfold Generic.ListModelMixin_list.
    apply readonly_bind; [apply readonly_review_queryset|]. intros; apply readonly_ret.
  - apply readonly_dispatch. unfold Generic.RetrieveModelMixin_retrieve.
    apply readonly_bind; [|intros; apply readonly_ret].
    apply readonly_get_object, readonly_review_queryset.
Qed.

(** X18: an anonymous caller cannot change the store: every route bound to
    [POST], [PUT], [PATCH] or [DELETE], in all three view sets, refuses the
    request as not authenticated (401 or 403) before its handler runs, and
    leaves the store as it is. *)
Theorem anonymous_never_writes (env : Env) (request : Request) (key : nat) (db : DB) :
  user request = AnonymousUser ->
  Forall (fun route =>
            route db
            = (Generic.handle_exception env
                 (match authentication_classes env with
                  | [] => PermissionDenied
                  | _ :: _ => NotAuthenticated
                  end), db))
    (Routes.writes env request key)
  /\ Forall (fun route =>
               snd (route db) = db
               /\ (status_code (fst (route db)) = HTTP_401_UNAUTHORIZED
                   \/ status_code (fst (route db)) = HTTP_403_FORBIDDEN))
       (Routes.writes env request key).
Proof.
  intros Hu.
  assert (Forall (fun route =>
                    route db
                    = (Generic.handle_exception env
                         (match authentication_classes env with
                          | [] => PermissionDenied
                          | _ :: _ => NotAuthenticated
                          end), db))
            (Routes.writes env request key)) as Hrefused.
  { unfold Routes.writes.
    repeat constructor;
      (apply dispatch_anonymous_refused; [assumption | simpl; now rewrite Hu]). }
  split; [exact Hrefused|].
  rewrite List.Forall_forall in *. intros route Hin.
  rewrite (Hrefused route Hin). split; [reflexivity|].
  apply refused_status.
Qed.

Lemma anonymous_never_writes_witness :
  Forall (fun route =>
            route Sample.db
            = (Generic.handle_exception Sample.env
                 (match authentication_classes Sample.env with
                  | [] => PermissionDenied
                  | _ :: _ => NotAuthenticated
                  end), Sample.db))
    (Routes.writes Sample.env
       (Sample.request AnonymousUser ∅ {[ "status" := VStr "confirmed" ]}) 1).
Proof.
  refine (proj1 (anonymous_never_writes Sample.env
           (Sample.request AnonymousUser ∅ {[ "status" := VStr "confirmed" ]}) 1
           Sample.db _)).
  reflexivity.
Defined.

(** ** Rejected payloads on create *)

(** X19: a create request whose payload the serializer rejects is answered
    400 and stores nothing, in each of the three view sets. *)
Theorem create_rejected_payload (env : Env) (request : Request) (db : DB) (u : nat) :
  user request = User u ->
  (run_validation (ListingSerializer env) None false (data request) = None ->
     ListingViewSet.POST_create env request db
     = (Response (Detail ValidationError) HTTP_400_BAD_REQUEST, db))
  /\ (run_validation (BookingSerializer env) None false (data request) = None ->
        BookingViewSet.POST_create env request db
        = (Response (Detail ValidationError) HTTP_400_BAD_REQUEST, db))
  /\ (run_validation (ReviewSerializer env) None false (data request) = None ->
        ReviewViewSet.POST_create env request db
        = (Response (Detail ValidationError) HTTP_400_BAD_REQUEST, db)).
Proof.
  intros Hu. split; [|split]; intros Hbad.
  - unfold ListingViewSet.POST_create, Generic.dispatch, ListingViewSet.permission_classes.
    rewrite (check_permissions_authenticated env _ _ request u Hu).
    unfold Generic.CreateModelMixin_create, Generic.get_valid_serializer.
    cbn [serializer_class ListingViewSet.self]. view_unfold.
    unfold ListingViewSet.serializer_class. now rewrite Hbad.
  - unfold BookingViewSet.POST_create, Generic.dispatch, BookingViewSet.permission_classes.
    rewrite (check_permissions_authenticated env _ _ request u Hu).
    unfold Generic.CreateModelMixin_create, Generic.get_valid_serializer.
    cbn [serializer_class BookingViewSet.self]. view_unfold.
    unfold BookingViewSet.serializer_class. now rewrite Hbad.
  - unfold ReviewViewSet.POST_create, Generic.dispatch, ReviewViewSet.permission_classes.
    rewrite (check_permissions_authenticated env _ _ request u Hu).
    unfold Generic.CreateModelMixin_create, Generic.get_valid_serializer.
    cbn [serializer_class ReviewViewSet.self]. view_unfold.
    unfold ReviewViewSet.serializer_class. now rewrite Hbad.
Qed.

Lemma create_rejected_payload_witness :
  BookingViewSet.POST_create Sample.env_creating
    (Sample.request (User Sample.visitor) ∅ {[ "check_in" := VInt 3 ]}) Sample.db
  = (Response (Detail ValidationError) HTTP_400_BAD_REQUEST, Sample.db).
Proof.
  refine (proj1 (proj2 (create_rejected_payload Sample.env_creating
           (Sample.request (User Sample.visitor) ∅ {[ "check_in" := VInt 3 ]})
           Sample.db Sample.visitor _)) _).
  - reflexivity.
  - vm_compute. reflexivity.
Defined.
